(** * Inference gateway: a shallow embedding of [main.py]

    The gateway is a [BaseHTTPRequestHandler] that answers a handful of
    routes, either with a locally synthesised "echo" completion or by
    proxying to a backend over [httpx].  The embedding follows the source
    function by function:

    - [PyStr], [Py]: Python strings and the values decoded from JSON, with
      attribute access, item assignment, truthiness and [+=] written out,
      each with the exception Python raises on the wrong shape;
    - [Http]: the calls the handler makes on its output side, the
      responses a client reads off them, and the outcomes of httpx calls;
    - [Gateway]: the handler's methods in a state-and-exception monad [M].
      The state holds the process-wide [metrics], the events written to the
      client and the log of outbound backend calls; a raised exception
      keeps the state reached so far, as in Python.  What the outside world
      answers (the parsed request, the clock readings, the generated UUID,
      the outcome of each httpx call) is the input [env]; [json.dumps] and
      [round] are library functions the handler is parametric in (class
      [PyLib]);
    - [Spec]: the vocabulary the properties are stated in, and [Examples]:
      the requests of the repository's tests and other concrete inputs;
    - [Runs]: every run of [do_POST] and [do_GET] with the state it ends
      in, [Sessions]: sequences of requests on the shared counters, and
      [Inputs]: further concrete requests.

    Logging calls have no effect on any modelled state and are left out. *)

From Stdlib Require Import ZArith List String Ascii Bool Lia.
From Stdlib Require Import Floats DecimalString.
Import ListNotations.

Set Warnings "-register-all".
Local Open Scope string_scope.
Local Open Scope Z_scope.
Local Open Scope list_scope.

(** ** Python strings

    A Python [str] is a Rocq [string] whose characters are its code points
    (code points below 256). *)

Module PyStr.

Definition LF : string := String (ascii_of_nat 10) EmptyString.

(** [str.isspace] on one code point below 256: TAB..CR, FS..US, space,
    NEL and NBSP. *)
Definition isspace (c : ascii) : bool :=
  let n := nat_of_ascii c in
  ((9 <=? n) && (n <=? 13) || (28 <=? n) && (n <=? 32)
   || (n =? 133) || (n =? 160))%nat.

(** [s.split()] with no separator: the maximal runs of non-whitespace.
    [cur] is the run being read, [None] between runs. *)
Fixpoint split_from (cur : option string) (s : string) : list string :=
  match s with
  | EmptyString => match cur with Some w => [w] | None => [] end
  | String c rest =>
      if isspace c then
        match cur with
        | Some w => w :: split_from None rest
        | None => split_from None rest
        end
      else
        split_from
          (Some (match cur with
                 | Some w => (w ++ String c EmptyString)%string
                 | None => String c EmptyString
                 end)) rest
  end.

Definition split (s : string) : list string := split_from None s.

(** The number of whitespace-separated tokens, counted without building
    them: a token starts at each non-space character that follows a space
    or the start of the string. *)
Fixpoint count_tokens_from (in_token : bool) (s : string) : nat :=
  match s with
  | EmptyString => 0
  | String c rest =>
      if isspace c then count_tokens_from false rest
      else ((if in_token then 0 else 1) + count_tokens_from true rest)%nat
  end.

Definition count_tokens (s : string) : nat := count_tokens_from false s.

(** [s.rstrip("/")]-style stripping of one trailing character class. *)
Fixpoint rstrip_char (ch : ascii) (s : string) : string :=
  match s with
  | EmptyString => EmptyString
  | String c rest =>
      match rstrip_char ch rest with
      | EmptyString => if Ascii.eqb c ch then EmptyString else String c EmptyString
      | r => String c r
      end
  end.

(** ASCII lower-casing, as header-name comparison uses it. *)
Definition lower_char (c : ascii) : ascii :=
  let n := nat_of_ascii c in
  if ((65 <=? n) && (n <=? 90))%nat then ascii_of_nat (n + 32) else c.

Fixpoint lower (s : string) : string :=
  match s with
  | EmptyString => EmptyString
  | String c rest => String (lower_char c) (lower rest)
  end.

(** [str(n)] for a natural number. *)
Definition str_of_nat (n : nat) : string :=
  NilEmpty.string_of_uint (Nat.to_uint n).

(** [s.encode()]: UTF-8 of code points below 256. *)
Fixpoint encode (s : string) : string :=
  match s with
  | EmptyString => EmptyString
  | String c rest =>
      let n := nat_of_ascii c in
      if (n <? 128)%nat then String c (encode rest)
      else String (ascii_of_nat (192 + n / 64))
             (String (ascii_of_nat (128 + n mod 64)) (encode rest))
  end.

End PyStr.

(** ** Python values and exceptions *)

Module Py.

(** What [json.loads] / [resp.json()] can return, and what the handler
    passes to [json.dumps].  A [dict] keeps insertion order. *)
Inductive json : Type :=
| JNull
| JBool (b : bool)
| JInt (z : Z)
| JFloat (f : float)
| JStr (s : string)
| JList (l : list json)
| JDict (d : list (string * json)).

(** The exceptions that occur in the modelled code.  [TimeoutException]
    and [RequestError] are httpx's; every [TimeoutException] is also a
    [RequestError], so the order of the [except] clauses matters. *)
Inductive exn : Type :=
| AttributeError
| TypeError
| ValueError
| OverflowError
| AssertionError
| TimeoutException
| RequestError.

Inductive result (A : Type) : Type :=
| Ok (a : A)
| Raise (e : exn).
Arguments Ok {A} a.
Arguments Raise {A} e.

(** [d.get(k)] on a dict: the value of the first entry with key [k]. *)
Fixpoint dict_get (k : string) (d : list (string * json)) : option json :=
  match d with
  | [] => None
  | (k', v) :: rest => if String.eqb k k' then Some v else dict_get k rest
  end.

(** [d[k] = v]: overwrite in place, or append a new last entry. *)
Fixpoint dict_set (k : string) (v : json) (d : list (string * json))
  : list (string * json) :=
  match d with
  | [] => [(k, v)]
  | (k', v') :: rest =>
      if String.eqb k k' then (k', v) :: rest else (k', v') :: dict_set k v rest
  end.

(** [x.get(k, default)]: only a dict has [.get]; anything else decoded
    from JSON raises [AttributeError]. *)
Definition py_get (x : json) (k : string) (default : json) : result json :=
  match x with
  | JDict d => Ok (match dict_get k d with Some v => v | None => default end)
  | _ => Raise AttributeError
  end.

(** [x[k] = v] with a string key: a dict is updated; a list wants integer
    indices and the other values support no item assignment ([TypeError]). *)
Definition py_setitem (x : json) (k : string) (v : json) : result json :=
  match x with
  | JDict d => Ok (JDict (dict_set k v d))
  | _ => Raise TypeError
  end.

(** Truthiness, as [if x:] and [not x] use it. *)
Definition truthy (x : json) : bool :=
  match x with
  | JNull => false
  | JBool b => b
  | JInt z => negb (z =? 0)
  | JFloat f => negb (PrimFloat.eqb f 0%float)
  | JStr s => negb (String.eqb s "")
  | JList l => match l with [] => false | _ => true end
  | JDict d => match d with [] => false | _ => true end
  end.

(** [x == "lit"] for a string literal. *)
Definition eq_str (x : json) (lit : string) : bool :=
  match x with
  | JStr s => String.eqb s lit
  | _ => false
  end.

(** A Python number held in a counter: [int] or [float]. *)
Inductive pynum : Type :=
| PInt (z : Z)
| PFloat (f : float).

(** [float(z)]: round to nearest even; [OverflowError] beyond the largest
    finite double. *)
Definition float_of_int (z : Z) : result float :=
  match SpecFloat.binary_normalize FloatOps.prec FloatOps.emax z 0 false with
  | SpecFloat.S754_infinity _ => Raise OverflowError
  | sf => Ok (FloatOps.SF2Prim sf)
  end.

Definition bool_to_Z (b : bool) : Z := if b then 1 else 0.

(** [a + x] for a counter [a] and a decoded JSON value [x] ([bool] is an
    [int] in Python); any other operand raises [TypeError]. *)
Definition py_add (a : pynum) (x : json) : result pynum :=
  match a, x with
  | PInt n, JInt z => Ok (PInt (n + z))
  | PInt n, JBool b => Ok (PInt (n + bool_to_Z b))
  | PInt n, JFloat f =>
      match float_of_int n with
      | Ok nf => Ok (PFloat (PrimFloat.add nf f))
      | Raise e => Raise e
      end
  | PFloat g, JInt z =>
      match float_of_int z with
      | Ok zf => Ok (PFloat (PrimFloat.add g zf))
      | Raise e => Raise e
      end
  | PFloat g, JBool b => Ok (PFloat (PrimFloat.add g (if b then 1%float else 0%float)))
  | PFloat g, JFloat f => Ok (PFloat (PrimFloat.add g f))
  | _, _ => Raise TypeError
  end.

Definition pynum_to_json (a : pynum) : json :=
  match a with
  | PInt z => JInt z
  | PFloat f => JFloat f
  end.

End Py.

(** ** What the handler writes to the client, and what it asks the backend *)

Module Http.
Import Py.

(** One call on the handler's output side, in the order the calls are
    made: [self.send_response], [self.send_header], [self.end_headers],
    [self.wfile.write], [self.wfile.flush]. *)
Inductive wire_event : Type :=
| SendResponse (status : Z)
| SendHeader (name value : string)
| EndHeaders
| WfileWrite (data : string)
| WfileFlush.

(** A response as the client reads it: a status line, the headers that
    follow it and the bytes written until the next status line. *)
Record response : Type := {
  r_status : Z;
  r_headers : list (string * string);
  r_body : string
}.

Fixpoint headers_until_next (w : list wire_event) : list (string * string) :=
  match w with
  | [] => []
  | SendResponse _ :: _ => []
  | SendHeader n v :: rest => (n, v) :: headers_until_next rest
  | _ :: rest => headers_until_next rest
  end.

Fixpoint body_until_next (w : list wire_event) : string :=
  match w with
  | [] => EmptyString
  | SendResponse _ :: _ => EmptyString
  | WfileWrite b :: rest => (b ++ body_until_next rest)%string
  | _ :: rest => body_until_next rest
  end.

Fixpoint responses_of (w : list wire_event) : list response :=
  match w with
  | [] => []
  | SendResponse st :: rest =>
      {| r_status := st;
         r_headers := headers_until_next rest;
         r_body := body_until_next rest |} :: responses_of rest
  | _ :: rest => responses_of rest
  end.

(** The value of a response header, by exact name. *)
Fixpoint header (name : string) (hs : list (string * string)) : option string :=
  match hs with
  | [] => None
  | (n, v) :: rest => if String.eqb n name then Some v else header name rest
  end.

(** [self.headers.get(name)] on the request: header names compare
    case-insensitively and the first match wins. *)
Fixpoint headers_get (name : string) (hs : list (string * string)) : option string :=
  match hs with
  | [] => None
  | (n, v) :: rest =>
      if String.eqb (PyStr.lower n) (PyStr.lower name) then Some v
      else headers_get name rest
  end.

(** One outbound httpx call. *)
Inductive backend_call : Type :=
| ClientPost (url : string) (body : json) (timeout : float)
| ClientStream (url : string) (body : json) (timeout : float)
| ClientGet (url : string) (timeout : float).

(** How an httpx call can fail: [httpx.TimeoutException], or any other
    [httpx.RequestError] (refused, DNS, reset). *)
Inductive httpx_failure : Type :=
| TimedOut
| ConnectionFailed.

Definition exn_of (f : httpx_failure) : exn :=
  match f with
  | TimedOut => TimeoutException
  | ConnectionFailed => RequestError
  end.

(** A buffered upstream response: [resp.status_code] and the outcome of
    [resp.json()] ([None] when it raises). *)
Record upstream : Type := {
  status_code : Z;
  decoded : option json
}.

Inductive call_outcome : Type :=
| CallFails (f : httpx_failure)
| CallReturns (r : upstream).

(** A streamed upstream response: its status, the lines [iter_lines]
    yields, and the failure that ends the iteration early, if any. *)
Record upstream_stream : Type := {
  stream_status_code : Z;
  stream_lines : list string;
  stream_failure : option httpx_failure
}.

Inductive stream_outcome : Type :=
| StreamFails (f : httpx_failure)
| StreamOpens (r : upstream_stream).

End Http.

(** ** The gateway *)

Module Gateway.
Import Py Http.

(** The library functions the handler calls on values: [json.dumps] and
    the built-in [round(x, ndigits)]. *)
Class PyLib : Type := {
  json_dumps : json -> string;
  py_round : float -> Z -> float
}.

(** [class Metrics]: the process-wide counters.  The token totals start
    as [int] and stay what Python's [+=] makes of them. *)
Record Metrics : Type := {
  request_count : Z;
  error_count : Z;
  total_latency_ms : float;
  prompt_tokens_total : pynum;
  completion_tokens_total : pynum
}.

(** [metrics = Metrics()] *)
Definition fresh_metrics : Metrics :=
  {| request_count := 0;
     error_count := 0;
     total_latency_ms := 0%float;
     prompt_tokens_total := PInt 0;
     completion_tokens_total := PInt 0 |}.

(** Everything a request can change: the global [metrics], the events
    written to the client so far, the backend calls made so far. *)
Record state : Type := {
  metrics : Metrics;
  wire : list wire_event;
  calls : list backend_call
}.

Definition initial_state : state :=
  {| metrics := fresh_metrics; wire := []; calls := [] |}.

(** Everything one request reads from outside the handler. *)
Record env : Type := {
  path : string;                      (* self.path *)
  headers : list (string * string);   (* self.headers *)
  body : option json;                 (* _read_json_body(); None: it raises ValueError *)
  backend_url : option string;        (* settings.backend_url *)
  uuid4 : string;                     (* str(uuid.uuid4()) *)
  t_start : float;                    (* time.monotonic() on entry *)
  t_record : float;                   (* time.monotonic() when metrics are recorded *)
  on_post : call_outcome;             (* client.post(url, json=body) *)
  on_stream : stream_outcome;         (* client.stream("POST", url, json=body) *)
  on_get : call_outcome               (* client.get(url) *)
}.

(** *** The state-and-exception monad *)

Definition M (A : Type) : Type := state -> result A * state.

Definition ret {A : Type} (a : A) : M A := fun st => (Ok a, st).

Definition bind {A B : Type} (m : M A) (k : A -> M B) : M B :=
  fun st =>
    match m st with
    | (Ok a, st') => k a st'
    | (Raise e, st') => (Raise e, st')
    end.

Definition raise {A : Type} (e : exn) : M A := fun st => (Raise e, st).

Definition lift {A : Type} (r : result A) : M A := fun st => (r, st).

(** [try: m  except ...: h e]; [h] answers [None] for an exception no
    clause matches, which then propagates. *)
Definition try_except {A : Type} (m : M A) (h : exn -> option (M A)) : M A :=
  fun st =>
    match m st with
    | (Ok a, st') => (Ok a, st')
    | (Raise e, st') =>
        match h e with
        | Some handler => handler st'
        | None => (Raise e, st')
        end
    end.

Declare Scope gw_scope.
Delimit Scope gw_scope with gw.
Notation "x <- c1 ;; c2" := (bind c1 (fun x => c2))
  (at level 61, c1 at next level, right associativity) : gw_scope.
Notation "c1 ;; c2" := (bind c1 (fun _ => c2))
  (at level 61, right associativity) : gw_scope.
Local Open Scope gw_scope.

Definition emit (e : wire_event) : M unit :=
  fun st => (Ok tt, {| metrics := metrics st; wire := wire st ++ [e]; calls := calls st |}).

Definition update_metrics (f : Metrics -> Metrics) : M unit :=
  fun st => (Ok tt, {| metrics := f (metrics st); wire := wire st; calls := calls st |}).

Definition get_metrics : M Metrics := fun st => (Ok (metrics st), st).

Definition log_call (c : backend_call) : M unit :=
  fun st => (Ok tt, {| metrics := metrics st; wire := wire st; calls := calls st ++ [c] |}).

(** [for x in xs: f x] *)
Fixpoint for_each {A : Type} (f : A -> M unit) (xs : list A) : M unit :=
  match xs with
  | [] => ret tt
  | x :: rest => f x ;; for_each f rest
  end.

(** The three httpx calls: each is logged, then answers as [env] says. *)
Definition client_post (e : env) (url : string) (payload : json) (timeout : float)
  : M upstream :=
  log_call (ClientPost url payload timeout) ;;
  match on_post e with
  | CallFails f => raise (exn_of f)
  | CallReturns r => ret r
  end.

Definition client_stream (e : env) (url : string) (payload : json) (timeout : float)
  : M upstream_stream :=
  log_call (ClientStream url payload timeout) ;;
  match on_stream e with
  | StreamFails f => raise (exn_of f)
  | StreamOpens r => ret r
  end.

Definition client_get (e : env) (url : string) (timeout : float) : M upstream :=
  log_call (ClientGet url timeout) ;;
  match on_get e with
  | CallFails f => raise (exn_of f)
  | CallReturns r => ret r
  end.

(** [if settings.backend_url:] is true for a non-empty string only. *)
Definition configured_backend (e : env) : option string :=
  match backend_url e with
  | Some u => if String.eqb u "" then None else Some u
  | None => None
  end.

(** [(time.monotonic() - start) * 1000] *)
Definition latency_ms (e : env) : float :=
  PrimFloat.mul (PrimFloat.sub (t_record e) (t_start e)) 1000%float.

Definition error_body (code : string) : json := JDict [("error", JStr code)].

(** [build_response] with [model] at its default. *)
Definition build_response (request_id content : string)
  (prompt_tokens completion_tokens : Z) : json :=
  JDict [
    ("id", JStr request_id);
    ("object", JStr "chat.completion");
    ("model", JStr "echo");
    ("choices", JList [
       JDict [
         ("index", JInt 0);
         ("message", JDict [("role", JStr "assistant"); ("content", JStr content)]);
         ("finish_reason", JStr "stop")
       ]
     ]);
    ("usage", JDict [
       ("prompt_tokens", JInt prompt_tokens);
       ("completion_tokens", JInt completion_tokens);
       ("total_tokens", JInt (prompt_tokens + completion_tokens))
     ])
  ].

(** The chunk [_send_sse_echo] serialises. *)
Definition echo_chunk (request_id content : string) : json :=
  JDict [
    ("id", JStr request_id);
    ("object", JStr "chat.completion.chunk");
    ("choices", JList [
       JDict [
         ("index", JInt 0);
         ("delta", JDict [("role", JStr "assistant"); ("content", JStr content)]);
         ("finish_reason", JStr "stop")
       ]
     ])
  ].

(** The static listing [do_GET] answers on [/v1/models] in echo mode. *)
Definition echo_models : json :=
  JDict [
    ("object", JStr "list");
    ("data", JList [
       JDict [
         ("id", JStr "echo");
         ("object", JStr "model");
         ("owned_by", JStr "inference-gateway")
       ]
     ])
  ].

(** [_get_request_id]: an absent or empty header falls through [or]. *)
Definition _get_request_id (e : env) : string :=
  match headers_get "X-Request-ID" (headers e) with
  | Some (String c r) => String c r
  | _ =>
      match headers_get "Request-Id" (headers e) with
      | Some (String c r) => String c r
      | _ => uuid4 e
      end
  end.

(** *** The handler's methods *)

Section Handler.
Context {lib : PyLib}.

Definition send_response (status : Z) : M unit := emit (SendResponse status).
Definition send_header (name value : string) : M unit := emit (SendHeader name value).
Definition end_headers : M unit := emit EndHeaders.
Definition wfile_write (data : string) : M unit := emit (WfileWrite data).
Definition wfile_flush : M unit := emit WfileFlush.

(** [_send_json(status, data, *, request_id=None)] *)
Definition _send_json (status : Z) (data : json) (request_id : option string) : M unit :=
  let payload := PyStr.encode (json_dumps data) in
  send_response status ;;
  send_header "Content-Type" "application/json" ;;
  send_header "Content-Length" (PyStr.str_of_nat (String.length payload)) ;;
  match request_id with
  | Some (String c r) => send_header "X-Request-ID" (String c r)
  | _ => ret tt
  end ;;
  end_headers ;;
  wfile_write payload.

(** [_record_metrics(status, latency_ms, prompt_tokens, completion_tokens)]:
    five statements, each of which may be the last one reached. *)
Definition _record_metrics (status : Z) (latency : float)
  (prompt_tokens completion_tokens : json) : M unit :=
  update_metrics (fun m =>
    {| request_count := request_count m + 1;
       error_count := error_count m;
       total_latency_ms := total_latency_ms m;
       prompt_tokens_total := prompt_tokens_total m;
       completion_tokens_total := completion_tokens_total m |}) ;;
  update_metrics (fun m =>
    {| request_count := request_count m;
       error_count := error_count m;
       total_latency_ms := PrimFloat.add (total_latency_ms m) latency;
       prompt_tokens_total := prompt_tokens_total m;
       completion_tokens_total := completion_tokens_total m |}) ;;
  m <- get_metrics ;;
  p <- lift (py_add (prompt_tokens_total m) prompt_tokens) ;;
  update_metrics (fun m =>
    {| request_count := request_count m;
       error_count := error_count m;
       total_latency_ms := total_latency_ms m;
       prompt_tokens_total := p;
       completion_tokens_total := completion_tokens_total m |}) ;;
  m <- get_metrics ;;
  c <- lift (py_add (completion_tokens_total m) completion_tokens) ;;
  update_metrics (fun m =>
    {| request_count := request_count m;
       error_count := error_count m;
       total_latency_ms := total_latency_ms m;
       prompt_tokens_total := prompt_tokens_total m;
       completion_tokens_total := c |}) ;;
  if 400 <=? status then
    update_metrics (fun m =>
      {| request_count := request_count m;
         error_count := error_count m + 1;
         total_latency_ms := total_latency_ms m;
         prompt_tokens_total := prompt_tokens_total m;
         completion_tokens_total := completion_tokens_total m |})
  else ret tt.

(** [_send_sse_echo(request_id, content)] *)
Definition _send_sse_echo (request_id content : string) : M unit :=
  let chunk := echo_chunk request_id content in
  send_response 200 ;;
  send_header "Content-Type" "text/event-stream" ;;
  send_header "Cache-Control" "no-cache" ;;
  send_header "X-Request-ID" request_id ;;
  end_headers ;;
  wfile_write (PyStr.encode ("data: " ++ json_dumps chunk ++ PyStr.LF ++ PyStr.LF)%string) ;;
  wfile_write ("data: [DONE]" ++ PyStr.LF ++ PyStr.LF)%string ;;
  wfile_flush.

(** [_handle_echo(request_id, prompt, stream, start, log)].  The f-string
    formats any value; [prompt.split()] is the first statement that needs
    [prompt] to be a [str]. *)
Definition _handle_echo (e : env) (request_id : string) (prompt stream : json) : M unit :=
  match prompt with
  | JStr p =>
      let content := ("Echo: " ++ p)%string in
      let prompt_tokens := Z.of_nat (List.length (PyStr.split p)) in
      let completion_tokens := Z.of_nat (List.length (PyStr.split content)) in
      (if truthy stream then _send_sse_echo request_id content
       else _send_json 200
              (build_response request_id content prompt_tokens completion_tokens)
              (Some request_id)) ;;
      _record_metrics 200 (latency_ms e) (JInt prompt_tokens) (JInt completion_tokens)
  | _ => raise AttributeError
  end.

(** [_proxy_non_stream(request_id, url, body, start, log)] *)
Definition _proxy_non_stream (e : env) (request_id url : string) (payload : json) : M unit :=
  resp <- client_post e url payload 60%float ;;
  if 500 <=? status_code resp then
    _record_metrics 502 (latency_ms e) (JInt 0) (JInt 0) ;;
    _send_json 502 (error_body "backend_error") (Some request_id)
  else
    match decoded resp with
    | None =>
        _record_metrics 502 (latency_ms e) (JInt 0) (JInt 0) ;;
        _send_json 502 (error_body "backend_invalid_response") (Some request_id)
    | Some data =>
        data <- lift (py_setitem data "id" (JStr request_id)) ;;
        usage <- lift (py_get data "usage" (JDict [])) ;;
        prompt_tokens <- lift (py_get usage "prompt_tokens" (JInt 0)) ;;
        completion_tokens <- lift (py_get usage "completion_tokens" (JInt 0)) ;;
        _record_metrics (status_code resp) (latency_ms e) prompt_tokens completion_tokens ;;
        _send_json (status_code resp) data (Some request_id)
    end.

(** [_proxy_stream(request_id, url, body, start, log)] *)
Definition _proxy_stream (e : env) (request_id url : string) (payload : json) : M unit :=
  resp <- client_stream e url payload 60%float ;;
  if 500 <=? stream_status_code resp then
    _record_metrics 502 (latency_ms e) (JInt 0) (JInt 0) ;;
    _send_json 502 (error_body "backend_error") (Some request_id)
  else
    send_response 200 ;;
    send_header "Content-Type" "text/event-stream" ;;
    send_header "Cache-Control" "no-cache" ;;
    send_header "X-Request-ID" request_id ;;
    end_headers ;;
    for_each (fun line => wfile_write (PyStr.encode (line ++ PyStr.LF)%string))
             (stream_lines resp) ;;
    match stream_failure resp with
    | Some f => raise (exn_of f)
    | None => ret tt
    end ;;
    wfile_write PyStr.LF ;;
    wfile_flush ;;
    _record_metrics 200 (latency_ms e) (JInt 0) (JInt 0).

(** [_handle_backend(request_id, body, stream, start, log)] *)
Definition _handle_backend (e : env) (request_id : string) (payload stream : json) : M unit :=
  match backend_url e with
  | None => raise AssertionError
  | Some base =>
      let url := (PyStr.rstrip_char "/" base ++ "/v1/chat/completions")%string in
      try_except
        (if truthy stream then _proxy_stream e request_id url payload
         else _proxy_non_stream e request_id url payload)
        (fun ex =>
           match ex with
           | TimeoutException =>
               Some (_record_metrics 504 (latency_ms e) (JInt 0) (JInt 0) ;;
                     _send_json 504 (error_body "gateway_timeout") (Some request_id))
           | RequestError =>
               Some (_record_metrics 502 (latency_ms e) (JInt 0) (JInt 0) ;;
                     _send_json 502 (error_body "backend_unavailable") (Some request_id))
           | _ => None
           end)
  end.

(** [isinstance(x, list)] *)
Definition isinstance_list (x : json) : bool :=
  match x with
  | JList _ => true
  | _ => false
  end.

Definition items (x : json) : list json :=
  match x with
  | JList l => l
  | _ => []
  end.

(** The loop over [reversed(messages)]: [msgs] is the reversed list;
    [prompt] starts as the empty string and the first user entry ends the
    loop. *)
Fixpoint scan_prompt (msgs : list json) : result json :=
  match msgs with
  | [] => Ok (JStr "")
  | msg :: rest =>
      match py_get msg "role" JNull with
      | Raise ex => Raise ex
      | Ok role =>
          if eq_str role "user" then py_get msg "content" (JStr "")
          else scan_prompt rest
      end
  end.

(** [_read_json_body]: [int(Content-Length)], [rfile.read] and
    [json.loads] are library calls; [body e] is what they come to. *)
Definition _read_json_body (e : env) : M json :=
  match body e with
  | Some b => ret b
  | None => raise ValueError
  end.

(** [_handle_chat_completions].  The [try] around [_read_json_body()]
    catches [ValueError] ([json.JSONDecodeError] is one) and returns; the
    statements after it run outside any [try]. *)
Definition _handle_chat_completions (e : env) : M unit :=
  let request_id := _get_request_id e in
  parsed <- try_except
              (b <- _read_json_body e ;; ret (Some b))
              (fun ex =>
                 match ex with
                 | ValueError =>
                     Some (_record_metrics 400 (latency_ms e) (JInt 0) (JInt 0) ;;
                           _send_json 400 (error_body "invalid_json") None ;;
                           ret None)
                 | _ => None
                 end) ;;
  match parsed with
  | None => ret tt
  | Some b =>
      messages <- lift (py_get b "messages" JNull) ;;
      if negb (isinstance_list messages) || negb (truthy messages) then
        _record_metrics 400 (latency_ms e) (JInt 0) (JInt 0) ;;
        _send_json 400 (error_body "invalid_messages") None
      else
        stream <- lift (py_get b "stream" (JBool false)) ;;
        prompt <- lift (scan_prompt (rev (items messages))) ;;
        match configured_backend e with
        | Some _ => _handle_backend e request_id b stream
        | None => _handle_echo e request_id prompt stream
        end
  end.

(** [_proxy_models] *)
Definition _proxy_models (e : env) : M unit :=
  match backend_url e with
  | None => raise AssertionError
  | Some base =>
      let url := (PyStr.rstrip_char "/" base ++ "/v1/models")%string in
      try_except
        (resp <- client_get e url 10%float ;;
         data <- match decoded resp with
                 | Some d => ret d
                 | None => raise ValueError
                 end ;;
         _send_json (status_code resp) data None)
        (fun ex =>
           match ex with
           | TimeoutException =>
               Some (_send_json 504 (error_body "gateway_timeout") None)
           | RequestError =>
               Some (_send_json 502 (error_body "backend_unavailable") None)
           | _ => None
           end)
  end.

(** The body of [GET /metrics]. *)
Definition metrics_body (m : Metrics) : json :=
  JDict [
    ("request_count", JInt (request_count m));
    ("error_count", JInt (error_count m));
    ("total_latency_ms", JFloat (py_round (total_latency_ms m) 2));
    ("prompt_tokens_total", pynum_to_json (prompt_tokens_total m));
    ("completion_tokens_total", pynum_to_json (completion_tokens_total m))
  ].

(** [do_GET] *)
Definition do_GET (e : env) : M unit :=
  if String.eqb (path e) "/healthz" then
    _send_json 200 (JDict [("status", JStr "ok")]) None
  else if String.eqb (path e) "/v1/models" then
    match configured_backend e with
    | Some _ => _proxy_models e
    | None => _send_json 200 echo_models None
    end
  else if String.eqb (path e) "/metrics" then
    m <- get_metrics ;;
    _send_json 200 (metrics_body m) None
  else
    _send_json 404 (error_body "not_found") None.

(** [do_POST] *)
Definition do_POST (e : env) : M unit :=
  if String.eqb (path e) "/v1/chat/completions" then _handle_chat_completions e
  else _send_json 404 (error_body "not_found") None.

End Handler.

End Gateway.

(** ** Vocabulary for stating what the handler does *)

Module Spec.
Import Py Http Gateway.

(** *** States *)

(** The state after [evs] more events went to the client. *)
Definition add_events (evs : list wire_event) (st : state) : state :=
  {| metrics := metrics st; wire := wire st ++ evs; calls := calls st |}.

Definition set_metrics (m : Metrics) (st : state) : state :=
  {| metrics := m; wire := wire st; calls := calls st |}.

(** The state after one more backend call was made. *)
Definition add_call (c : backend_call) (st : state) : state :=
  {| metrics := metrics st; wire := wire st; calls := calls st ++ [c] |}.

(** *** Counters *)

(** The counters after one complete [_record_metrics] call that left the
    token totals at [p] and [c]. *)
Definition recorded (status : Z) (latency : float) (p c : pynum) (m : Metrics) : Metrics :=
  {| request_count := request_count m + 1;
     error_count := if 400 <=? status then error_count m + 1 else error_count m;
     total_latency_ms := PrimFloat.add (total_latency_ms m) latency;
     prompt_tokens_total := p;
     completion_tokens_total := c |}.

(** What [+= 0] leaves in a counter. *)
Definition plus_zero (a : pynum) : pynum :=
  match a with
  | PInt n => PInt n
  | PFloat g => PFloat (PrimFloat.add g 0%float)
  end.

(** The counters after a [_record_metrics] call with zero tokens. *)
Definition recorded_zero (status : Z) (latency : float) (m : Metrics) : Metrics :=
  recorded status latency
    (plus_zero (prompt_tokens_total m)) (plus_zero (completion_tokens_total m)) m.

(** The counters when [_record_metrics] stops at a failing [+=]: the
    request is counted and the latency added, no error is counted yet. *)
Definition counted_only (latency : float) (p : pynum) (m : Metrics) : Metrics :=
  {| request_count := request_count m + 1;
     error_count := error_count m;
     total_latency_ms := PrimFloat.add (total_latency_ms m) latency;
     prompt_tokens_total := p;
     completion_tokens_total := completion_tokens_total m |}.

(** Both token totals are still Python [int]s. *)
Definition int_totals (m : Metrics) : bool :=
  match prompt_tokens_total m, completion_tokens_total m with
  | PInt _, PInt _ => true
  | _, _ => false
  end.

(** *** Events and responses *)

(** The events of one [_send_json] call. *)
Definition json_events {lib : PyLib} (status : Z) (data : json) (request_id : option string)
  : list wire_event :=
  let payload := PyStr.encode (json_dumps data) in
  [SendResponse status;
   SendHeader "Content-Type" "application/json";
   SendHeader "Content-Length" (PyStr.str_of_nat (String.length payload))]
  ++ match request_id with
     | Some (String c r) => [SendHeader "X-Request-ID" (String c r)]
     | _ => []
     end
  ++ [EndHeaders; WfileWrite payload].

(** The response the client reads off one [_send_json] call. *)
Definition json_response {lib : PyLib} (status : Z) (data : json)
  (request_id : option string) : response :=
  let payload := PyStr.encode (json_dumps data) in
  {| r_status := status;
     r_headers :=
       [("Content-Type", "application/json");
        ("Content-Length", PyStr.str_of_nat (String.length payload))]
       ++ match request_id with
          | Some (String c r) => [("X-Request-ID", String c r)]
          | _ => []
          end;
     r_body := payload |}.

(** The events of one [_send_sse_echo] call. *)
Definition sse_echo_events {lib : PyLib} (request_id content : string) : list wire_event :=
  [SendResponse 200;
   SendHeader "Content-Type" "text/event-stream";
   SendHeader "Cache-Control" "no-cache";
   SendHeader "X-Request-ID" request_id;
   EndHeaders;
   WfileWrite
     (PyStr.encode
        ("data: " ++ json_dumps (echo_chunk request_id content) ++ PyStr.LF ++ PyStr.LF)%string);
   WfileWrite ("data: [DONE]" ++ PyStr.LF ++ PyStr.LF)%string;
   WfileFlush].

(** The head of a relayed stream, and the relayed lines. *)
Definition stream_head_events (request_id : string) : list wire_event :=
  [SendResponse 200;
   SendHeader "Content-Type" "text/event-stream";
   SendHeader "Cache-Control" "no-cache";
   SendHeader "X-Request-ID" request_id;
   EndHeaders].

Definition relayed_lines (lines : list string) : list wire_event :=
  map (fun line => WfileWrite (PyStr.encode (line ++ PyStr.LF)%string)) lines.

(** The status line written last, if any. *)
Definition final_status (w : list wire_event) : option Z :=
  fold_left (fun acc ev => match ev with SendResponse s => Some s | _ => acc end) w None.

(** The status lines the client reads, in order. *)
Definition statuses (w : list wire_event) : list Z := map r_status (responses_of w).

(** The response carries [X-Request-ID: rid]. *)
Definition carries_request_id (rid : string) (r : response) : Prop :=
  header "X-Request-ID" (r_headers r) = Some rid.

(** *** Reading decoded values *)

(** Reading a field or an element out of a decoded value:
    [data["choices"][0]["message"]["content"]] is the path
    [[Key "choices"; Index 0; Key "message"; Key "content"]]. *)
Inductive step : Type :=
| Key (k : string)
| Index (n : nat).

Fixpoint json_path (j : json) (p : list step) : option json :=
  match p with
  | [] => Some j
  | Key k :: p' =>
      match j with
      | JDict d =>
          match dict_get k d with
          | Some v => json_path v p'
          | None => None
          end
      | _ => None
      end
  | Index n :: p' =>
      match j with
      | JList l =>
          match nth_error l n with
          | Some v => json_path v p'
          | None => None
          end
      | _ => None
      end
  end.

(** *** Requests *)

(** A message entry of the shape the data model gives a ChatRequest: an
    object whose [content], when present, is a string. *)
Definition well_formed_message (m : json) : bool :=
  match m with
  | JDict d =>
      match dict_get "content" d with
      | Some (JStr _) => true
      | Some _ => false
      | None => true
      end
  | _ => false
  end.

Definition is_object (x : json) : bool :=
  match x with
  | JDict _ => true
  | _ => false
  end.

Definition role_is_user (m : json) : bool :=
  match m with
  | JDict d =>
      match dict_get "role" d with
      | Some r => eq_str r "user"
      | None => false
      end
  | _ => false
  end.

Definition text_content (m : json) : string :=
  match m with
  | JDict d =>
      match dict_get "content" d with
      | Some (JStr s) => s
      | _ => ""
      end
  | _ => ""
  end.

(** "The content of the last message whose role equals user, the empty
    string if none exists", read front to back: every user message
    replaces what was remembered before it. *)
Fixpoint last_user_content_from (acc : string) (msgs : list json) : string :=
  match msgs with
  | [] => acc
  | m :: rest =>
      last_user_content_from (if role_is_user m then text_content m else acc) rest
  end.

Definition last_user_content (msgs : list json) : string :=
  last_user_content_from "" msgs.

(** [body.get("stream", False)] on a request object. *)
Definition stream_flag (d : list (string * json)) : json :=
  match dict_get "stream" d with
  | Some v => v
  | None => JBool false
  end.

(** A request header counts as supplied when it is present and not
    empty. *)
Definition supplied (name : string) (e : env) : bool :=
  match headers_get name (headers e) with
  | Some (String _ _) => true
  | _ => false
  end.

(** The validation verdict of the Request Classifier: the error code of
    the 400 response, or [None] when the request is not rejected. *)
Definition rejection (e : env) : option string :=
  match body e with
  | None => Some "invalid_json"
  | Some (JDict d) =>
      match dict_get "messages" d with
      | Some (JList (_ :: _)) => None
      | _ => Some "invalid_messages"
      end
  | Some _ => None
  end.

(** *** Backend replies *)

(** The URL the chat proxy posts to, and the one the models proxy gets. *)
Definition chat_url (base : string) : string :=
  (PyStr.rstrip_char "/" base ++ "/v1/chat/completions")%string.

Definition models_url (base : string) : string :=
  (PyStr.rstrip_char "/" base ++ "/v1/models")%string.

(** The failure translation of the error taxonomy: a timeout is 504
    [gateway_timeout], any other connection failure 502
    [backend_unavailable]. *)
Definition failure_status (f : httpx_failure) : Z :=
  match f with
  | TimedOut => 504
  | ConnectionFailed => 502
  end.

Definition failure_code (f : httpx_failure) : string :=
  match f with
  | TimedOut => "gateway_timeout"
  | ConnectionFailed => "backend_unavailable"
  end.

(** [usage.get(k, 0)] on the usage object of a decoded upstream body, and
    [data.get("usage", {})]. *)
Definition usage_of (data : list (string * json)) : json :=
  match dict_get "usage" data with
  | Some u => u
  | None => JDict []
  end.

Definition token_count (k : string) (usage : list (string * json)) : json :=
  match dict_get k usage with
  | Some v => v
  | None => JInt 0
  end.

(** *** Outcomes of a chat request *)

(** Everything the events of one validated chat request can be: nothing
    (the handler raised before writing); one JSON response with the request
    id in its header, whose data has no [id] or has the request id as [id];
    the echo stream; the upstream stream relayed to its end; or the
    upstream stream relayed until it broke, with the translated error
    response behind it. *)
Inductive gateway_reply {lib : PyLib} (e : env) (rid : string) : list wire_event -> Prop :=
| reply_nothing : gateway_reply e rid []
| reply_json (status : Z) (data : json) :
    json_path data [Key "id"] = None \/ json_path data [Key "id"] = Some (JStr rid) ->
    gateway_reply e rid (json_events status data (Some rid))
| reply_sse (content : string) :
    gateway_reply e rid (sse_echo_events rid content)
| reply_stream (r : upstream_stream) :
    on_stream e = StreamOpens r ->
    stream_failure r = None ->
    gateway_reply e rid
      (stream_head_events rid ++ relayed_lines (stream_lines r)
       ++ [WfileWrite PyStr.LF; WfileFlush])
| reply_broken_stream (r : upstream_stream) (f : httpx_failure) :
    on_stream e = StreamOpens r ->
    stream_failure r = Some f ->
    gateway_reply e rid
      (stream_head_events rid ++ relayed_lines (stream_lines r)
       ++ json_events (failure_status f) (error_body (failure_code f)) (Some rid)).

(** How a POST to [/v1/chat/completions] can end: rejected with a 400,
    answered and counted, or left by an exception. *)
Inductive chat_outcome {lib : PyLib} (e : env) (st : state) : result unit * state -> Prop :=
| outcome_rejected (code : string) (st' : state) :
    rejection e = Some code ->
    metrics st' = recorded_zero 400 (latency_ms e) (metrics st) ->
    wire st' = wire st ++ json_events 400 (error_body code) None ->
    calls st' = calls st ->
    chat_outcome e st (Ok tt, st')
| outcome_replied (status : Z) (p c : pynum) (evs : list wire_event)
    (cs : list backend_call) (st' : state) :
    rejection e = None ->
    gateway_reply e (_get_request_id e) evs ->
    final_status evs = Some status ->
    metrics st' = recorded status (latency_ms e) p c (metrics st) ->
    wire st' = wire st ++ evs ->
    calls st' = calls st ++ cs ->
    (List.length cs <= 1)%nat ->
    chat_outcome e st (Ok tt, st')
| outcome_raised (ex : exn) (evs : list wire_event) (cs : list backend_call) (st' : state) :
    rejection e = None ->
    gateway_reply e (_get_request_id e) evs ->
    request_count (metrics st) <= request_count (metrics st')
      <= request_count (metrics st) + 1 ->
    error_count (metrics st') = error_count (metrics st) ->
    wire st' = wire st ++ evs ->
    calls st' = calls st ++ cs ->
    (List.length cs <= 1)%nat ->
    chat_outcome e st (Raise ex, st').

(** *** Sequences of requests *)

(** Serving a sequence of POST requests one after the other, on the
    shared counters. *)
Fixpoint serve {lib : PyLib} (es : list env) (st : state) : state :=
  match es with
  | [] => st
  | e :: rest => serve rest (snd (do_POST e st))
  end.

(** Every request of the sequence completes: its handler returns. *)
Fixpoint all_complete {lib : PyLib} (es : list env) (st : state) : bool :=
  match es with
  | [] => true
  | e :: rest =>
      match fst (do_POST e st) with
      | Ok _ => all_complete rest (snd (do_POST e st))
      | Raise _ => false
      end
  end.




End Spec.

(** ** Concrete requests

    The requests of the repository's tests, and inputs off the expected
    path: a stream that breaks, odd upstream replies, ill-shaped bodies. *)

Module Examples.
Import Py Http Gateway Spec.

(** Closed examples need some [PyLib]; nothing stated below depends on
    which one.  This one serialises every value to the same two bytes and
    rounds nothing. *)
Definition plain_lib : PyLib :=
  {| json_dumps := fun _ => "{}"; py_round := fun x _ => x |}.

(** A request environment with nothing in it: no headers, an unparsable
    body, no backend, and httpx calls that time out. *)
Definition blank_env : env :=
  {| path := "/";
     headers := [];
     body := None;
     backend_url := None;
     uuid4 := "0b0e7b5e-3c1a-4f6e-9d2b-7a1c5e8f4a10";
     t_start := 1%float;
     t_record := 1.5%float;
     on_post := CallFails TimedOut;
     on_stream := StreamFails TimedOut;
     on_get := CallFails TimedOut |}.

Definition with_path (p : string) (e : env) : env :=
  {| path := p; headers := headers e; body := body e; backend_url := backend_url e;
     uuid4 := uuid4 e; t_start := t_start e; t_record := t_record e;
     on_post := on_post e; on_stream := on_stream e; on_get := on_get e |}.

Definition with_headers (hs : list (string * string)) (e : env) : env :=
  {| path := path e; headers := hs; body := body e; backend_url := backend_url e;
     uuid4 := uuid4 e; t_start := t_start e; t_record := t_record e;
     on_post := on_post e; on_stream := on_stream e; on_get := on_get e |}.

Definition with_body (b : json) (e : env) : env :=
  {| path := path e; headers := headers e; body := Some b; backend_url := backend_url e;
     uuid4 := uuid4 e; t_start := t_start e; t_record := t_record e;
     on_post := on_post e; on_stream := on_stream e; on_get := on_get e |}.

Definition with_backend (u : string) (e : env) : env :=
  {| path := path e; headers := headers e; body := body e; backend_url := Some u;
     uuid4 := uuid4 e; t_start := t_start e; t_record := t_record e;
     on_post := on_post e; on_stream := on_stream e; on_get := on_get e |}.

Definition with_post (o : call_outcome) (e : env) : env :=
  {| path := path e; headers := headers e; body := body e; backend_url := backend_url e;
     uuid4 := uuid4 e; t_start := t_start e; t_record := t_record e;
     on_post := o; on_stream := on_stream e; on_get := on_get e |}.

Definition with_stream (o : stream_outcome) (e : env) : env :=
  {| path := path e; headers := headers e; body := body e; backend_url := backend_url e;
     uuid4 := uuid4 e; t_start := t_start e; t_record := t_record e;
     on_post := on_post e; on_stream := o; on_get := on_get e |}.

Definition with_get (o : call_outcome) (e : env) : env :=
  {| path := path e; headers := headers e; body := body e; backend_url := backend_url e;
     uuid4 := uuid4 e; t_start := t_start e; t_record := t_record e;
     on_post := on_post e; on_stream := on_stream e; on_get := o |}.

Definition returns (status : Z) (data : option json) : call_outcome :=
  CallReturns {| status_code := status; decoded := data |}.

(** [{"model": "test", "messages": [{"role": "user", "content": "hello"}]}],
    the payload of the repository's tests, and its streaming variant. *)
Definition hello_messages : json :=
  JList [JDict [("role", JStr "user"); ("content", JStr "hello")]].

Definition hello_payload : json :=
  JDict [("model", JStr "test"); ("messages", hello_messages)].

Definition hello_stream_payload : json :=
  JDict [("model", JStr "test"); ("messages", hello_messages); ("stream", JBool true)].

Definition chat_env (payload : json) : env :=
  with_body payload (with_path "/v1/chat/completions" blank_env).

(** The tests' backend fixture: the same requests with
    [settings.backend_url = "http://test-backend"]. *)
Definition backend_env (payload : json) : env :=
  with_backend "http://test-backend" (chat_env payload).

(** The tests' request with a caller-chosen request id. *)
Definition hello_with_request_id : env :=
  with_headers [("X-Request-ID", "my-request-123")] (chat_env hello_payload).

(** The upstream reply of the tests' [test_backend_success]. *)
Definition mocked_completion : list (string * json) :=
  [("id", JStr "backend-id");
   ("choices", JList [JDict [("message", JDict [("role", JStr "assistant");
                                                ("content", JStr "ok")]);
                             ("finish_reason", JStr "stop")]]);
   ("usage", JDict [("prompt_tokens", JInt 5);
                    ("completion_tokens", JInt 3);
                    ("total_tokens", JInt 8)])].

(** *** Inputs off the expected path *)

(** An upstream stream that answers 200, yields one line and then times
    out. *)
Definition broken_stream : stream_outcome :=
  StreamOpens {| stream_status_code := 200;
                 stream_lines := ["data: {}"];
                 stream_failure := Some TimedOut |}.


(** A backend that answers 200 with [{"id": "cmpl-1", "usage": null}]. *)
Definition null_usage_env : env :=
  with_post (returns 200 (Some (JDict [("id", JStr "cmpl-1"); ("usage", JNull)])))
    (backend_env hello_payload).

(** A backend that answers 200 with the JSON array [[1, 2]]. *)
Definition array_reply_env : env :=
  with_post (returns 200 (Some (JList [JInt 1; JInt 2]))) (backend_env hello_payload).

(** A POST whose body is the JSON array [[]]. *)
Definition array_body_env : env := chat_env (JList []).

(** A POST with [{"messages": ["hi"]}]. *)
Definition string_message_env : env :=
  chat_env (JDict [("messages", JList [JStr "hi"])]).

(** [GET /v1/models] with a backend whose answer is 200 and not JSON. *)
Definition models_not_json_env : env :=
  with_get (returns 200 None)
    (with_backend "http://test-backend" (with_path "/v1/models" blank_env)).

End Examples.

(** ** The runs of the handler, case by case

    The vocabulary for describing every run of [do_POST] and [do_GET]
    with the state it ends in. *)

Module Runs.
Import Py Http Gateway Spec.

(** What one [_record_metrics] call makes of the counters, and whether it
    returns: a failing [+=] ends it after the request and its latency
    were counted. *)
Definition record_outcome (status : Z) (latency : float) (x y : json) (m : Metrics)
  : result unit * Metrics :=
  match py_add (prompt_tokens_total m) x with
  | Raise ex => (Raise ex, counted_only latency (prompt_tokens_total m) m)
  | Ok p =>
      match py_add (completion_tokens_total m) y with
      | Raise ex => (Raise ex, counted_only latency p m)
      | Ok c => (Ok tt, recorded status latency p c m)
      end
  end.

(** The events of an echo reply to the prompt [p]. *)
Definition echo_events {lib : PyLib} (rid p : string) (stream : json) : list wire_event :=
  if truthy stream then sse_echo_events rid ("Echo: " ++ p)%string
  else json_events 200
         (build_response rid ("Echo: " ++ p)%string
            (Z.of_nat (PyStr.count_tokens p))
            (Z.of_nat (PyStr.count_tokens ("Echo: " ++ p)%string)))
         (Some rid).

(** The one call a proxied chat request makes. *)
Definition backend_request (base : string) (d : list (string * json)) : backend_call :=
  if truthy (stream_flag d) then ClientStream (chat_url base) (JDict d) 60%float
  else ClientPost (chat_url base) (JDict d) 60%float.

(** The error responses the gateway makes itself: those of the backend
    path, and all of them. *)
Definition backend_errors : list (Z * string) :=
  [(502, "backend_error"); (502, "backend_invalid_response");
   (504, "gateway_timeout"); (502, "backend_unavailable")].

Definition gateway_errors : list (Z * string) :=
  (400, "invalid_json") :: (400, "invalid_messages") :: backend_errors.

(** Every way a POST to [/v1/chat/completions] can run, with the state it
    ends in. *)
Inductive chat_run {lib : PyLib} (e : env) (st : state) : result unit * state -> Prop :=
| run_rejected (code : string) :
    rejection e = Some code ->
    chat_run e st
      (Ok tt,
       add_events (json_events 400 (error_body code) None)
         (set_metrics (recorded_zero 400 (latency_ms e) (metrics st)) st))
| run_ill_shaped :
    rejection e = None ->
    chat_run e st (Raise AttributeError, st)
| run_echo (d : list (string * json)) (p : string) :
    rejection e = None ->
    configured_backend e = None ->
    body e = Some (JDict d) ->
    let r := record_outcome 200 (latency_ms e)
               (JInt (Z.of_nat (PyStr.count_tokens p)))
               (JInt (Z.of_nat (PyStr.count_tokens ("Echo: " ++ p)%string)))
               (metrics st) in
    chat_run e st
      (fst r,
       set_metrics (snd r)
         (add_events (echo_events (_get_request_id e) p (stream_flag d)) st))
| run_backend_error (base : string) (d : list (string * json)) (status : Z) (code : string) :
    rejection e = None ->
    configured_backend e = Some base ->
    body e = Some (JDict d) ->
    In (status, code) backend_errors ->
    chat_run e st
      (Ok tt,
       add_events (json_events status (error_body code) (Some (_get_request_id e)))
         (set_metrics (recorded_zero status (latency_ms e) (metrics st))
            (add_call (backend_request base d) st)))
| run_reply_ill_shaped (base : string) (d : list (string * json)) (ex : exn) :
    rejection e = None ->
    configured_backend e = Some base ->
    body e = Some (JDict d) ->
    ex = TypeError \/ ex = AttributeError ->
    chat_run e st (Raise ex, add_call (backend_request base d) st)
| run_relay (base : string) (d : list (string * json)) (up : upstream)
    (data usage : list (string * json)) :
    rejection e = None ->
    configured_backend e = Some base ->
    body e = Some (JDict d) ->
    truthy (stream_flag d) = false ->
    on_post e = CallReturns up ->
    status_code up < 500 ->
    decoded up = Some (JDict data) ->
    usage_of data = JDict usage ->
    let r := record_outcome (status_code up) (latency_ms e)
               (token_count "prompt_tokens" usage)
               (token_count "completion_tokens" usage) (metrics st) in
    chat_run e st
      (fst r,
       add_events
         (match fst r with
          | Ok _ =>
              json_events (status_code up)
                (JDict (dict_set "id" (JStr (_get_request_id e)) data))
                (Some (_get_request_id e))
          | Raise _ => []
          end)
         (set_metrics (snd r) (add_call (backend_request base d) st)))
| run_stream (base : string) (d : list (string * json)) (up : upstream_stream) :
    rejection e = None ->
    configured_backend e = Some base ->
    body e = Some (JDict d) ->
    truthy (stream_flag d) = true ->
    on_stream e = StreamOpens up ->
    stream_status_code up < 500 ->
    stream_failure up = None ->
    chat_run e st
      (Ok tt,
       set_metrics (recorded_zero 200 (latency_ms e) (metrics st))
         (add_events
            (stream_head_events (_get_request_id e) ++ relayed_lines (stream_lines up)
             ++ [WfileWrite PyStr.LF; WfileFlush])
            (add_call (backend_request base d) st)))
| run_broken_stream (base : string) (d : list (string * json)) (up : upstream_stream)
    (f : httpx_failure) :
    rejection e = None ->
    configured_backend e = Some base ->
    body e = Some (JDict d) ->
    truthy (stream_flag d) = true ->
    on_stream e = StreamOpens up ->
    stream_status_code up < 500 ->
    stream_failure up = Some f ->
    chat_run e st
      (Ok tt,
       add_events
         (stream_head_events (_get_request_id e) ++ relayed_lines (stream_lines up)
          ++ json_events (failure_status f) (error_body (failure_code f))
               (Some (_get_request_id e)))
         (set_metrics (recorded_zero (failure_status f) (latency_ms e) (metrics st))
            (add_call (backend_request base d) st))).

(** Every way a GET can run: answered locally, answered after one call
    to the backend's [/v1/models], or left by the [ValueError] of an
    undecodable backend reply. *)
Inductive get_run {lib : PyLib} (e : env) (st : state) : result unit * state -> Prop :=
| get_local (status : Z) (data : json) :
    get_run e st (Ok tt, add_events (json_events status data None) st)
| get_proxied (base : string) (status : Z) (data : json) :
    path e = "/v1/models" ->
    configured_backend e = Some base ->
    get_run e st
      (Ok tt,
       add_events (json_events status data None)
         (add_call (ClientGet (models_url base) 10%float) st))
| get_undecodable (base : string) (up : upstream) :
    path e = "/v1/models" ->
    configured_backend e = Some base ->
    on_get e = CallReturns up ->
    decoded up = None ->
    get_run e st (Raise ValueError, add_call (ClientGet (models_url base) 10%float) st).

(** *** Responses *)

(** The body a client reads off a relayed stream: every upstream line
    followed by a line feed, and one more line feed at the end. *)
Definition stream_body (lines : list string) : string :=
  fold_right (fun l acc => (PyStr.encode l ++ PyStr.LF ++ acc)%string) PyStr.LF lines.

(** A JSON response declares the byte length of its body; an event
    stream declares none. *)
Definition json_framed (r : response) : Prop :=
  header "Content-Type" (r_headers r) = Some "application/json"
  /\ header "Content-Length" (r_headers r)
     = Some (PyStr.str_of_nat (String.length (r_body r))).

Definition stream_framed (r : response) : Prop :=
  r_status r = 200
  /\ header "Content-Type" (r_headers r) = Some "text/event-stream"
  /\ header "Cache-Control" (r_headers r) = Some "no-cache"
  /\ header "Content-Length" (r_headers r) = None.

Definition well_framed (r : response) : Prop := json_framed r \/ stream_framed r.

(** The response is one of the gateway's own error responses. *)
Definition own_error {lib : PyLib} (table : list (Z * string)) (r : response) : Prop :=
  exists code,
    In (r_status r, code) table
    /\ r_body r = PyStr.encode (json_dumps (error_body code)).

(** What a response on the chat route can be: a 200 of the gateway (an
    echo reply or a stream), one of the gateway's own errors, or the
    buffered reply of the backend with its status, which is below 500. *)
Definition chat_response {lib : PyLib} (e : env) (r : response) : Prop :=
  r_status r = 200
  \/ own_error gateway_errors r
  \/ exists up,
       on_post e = CallReturns up /\ r_status r = status_code up /\ status_code up < 500.

(** *** Values and strings *)

(** What [+=] accepts next to a number. *)
Definition is_number (x : json) : bool :=
  match x with
  | JInt _ | JBool _ | JFloat _ => true
  | _ => false
  end.

(** [n] slashes. *)
Fixpoint slashes (n : nat) : string :=
  match n with
  | O => ""
  | S n' => String "/" (slashes n')
  end.

(** The string holds whitespace only; the string holds no whitespace. *)
Fixpoint blank (s : string) : bool :=
  match s with
  | EmptyString => true
  | String c rest => PyStr.isspace c && blank rest
  end.

Fixpoint solid (s : string) : bool :=
  match s with
  | EmptyString => true
  | String c rest => negb (PyStr.isspace c) && solid rest
  end.

(** A word: not empty, no whitespace. *)
Definition word (w : string) : Prop := w <> "" /\ solid w = true.

End Runs.

(** ** Sessions: requests served one after the other *)

Module Sessions.
Import Py Http Gateway Spec.

(** The two methods the handler defines. *)
Inductive method : Type :=
| GET
| POST.

Definition handle {lib : PyLib} (m : method) (e : env) : M unit :=
  match m with
  | GET => do_GET e
  | POST => do_POST e
  end.

(** Serving requests of either method on the shared counters; a request
    whose handler raises leaves the state it reached. *)
Fixpoint session {lib : PyLib} (rs : list (method * env)) (st : state) : state :=
  match rs with
  | [] => st
  | (m, e) :: rest => session rest (snd (handle m e st))
  end.

(** The prompt of a request whose [messages] is a non-empty list of
    well-formed entries. *)
Definition echo_prompt (e : env) : option string :=
  match body e with
  | Some (JDict d) =>
      match dict_get "messages" d with
      | Some (JList (m :: rest)) =>
          if forallb well_formed_message (m :: rest)
          then Some (last_user_content (m :: rest))
          else None
      | _ => None
      end
  | _ => None
  end.

(** A chat request to a gateway without a backend that is either
    rejected by validation or has well-formed messages. *)
Definition echo_request (e : env) : bool :=
  String.eqb (path e) "/v1/chat/completions"
  && match configured_backend e with None => true | Some _ => false end
  && match rejection e, echo_prompt e with
     | Some _, _ => true
     | None, Some _ => true
     | None, None => false
     end.

Definition echoed (e : env) : bool :=
  match echo_prompt e with
  | Some _ => true
  | None => false
  end.

Definition prompt_tokens_of (e : env) : Z :=
  match echo_prompt e with
  | Some P => Z.of_nat (PyStr.count_tokens P)
  | None => 0
  end.

Definition sum_prompt_tokens (es : list env) : Z :=
  fold_right (fun e acc => prompt_tokens_of e + acc) 0 es.

Definition count_echoed (es : list env) : Z :=
  Z.of_nat (List.length (filter echoed es)).

End Sessions.

(** ** Further concrete requests *)

Module Inputs.
Import Py Http Gateway Spec Examples.

(** An upstream stream that answers 404 with three lines and ends. *)
Definition not_found_stream : stream_outcome :=
  StreamOpens {| stream_status_code := 404;
                 stream_lines := ["data: {}"; ""; "data: [DONE]"];
                 stream_failure := None |}.

(** A backend that answers 200 with [{"usage": {"prompt_tokens": "5"}}]. *)
Definition string_usage_env : env :=
  with_post (returns 200 (Some (JDict [("usage", JDict [("prompt_tokens", JStr "5")])])))
    (backend_env hello_payload).

(** A backend that answers 500. *)
Definition backend_500_env : env :=
  with_post (returns 500 (Some (JDict []))) (backend_env hello_payload).

(** A POST whose [messages] starts with a bare string, followed by a user
    message and an assistant message. *)
Definition junk_then_user_env : env :=
  chat_env
    (JDict [("messages",
             JList [JStr "junk";
                    JDict [("role", JStr "user"); ("content", JStr "hi there")];
                    JDict [("role", JStr "assistant"); ("content", JStr "hello")]])]).

End Inputs.

(** * Properties *)

Import Py Http Gateway Spec Examples.
Local Open Scope gw_scope.

(** ** Running the handler's building blocks *)

Arguments _send_json : simpl never.
Arguments _record_metrics : simpl never.

Ltac run_monad :=
  unfold send_response, send_header, end_headers, wfile_write, wfile_flush;
  unfold bind, ret, raise, lift, try_except, emit, update_metrics, get_metrics,
    log_call.

Lemma append_assoc (a b c : string) : ((a ++ b) ++ c = a ++ (b ++ c))%string.
Proof. induction a as [|x a IH]; cbn; [reflexivity | now rewrite IH]. Qed.

Lemma append_nil_r (a : string) : (a ++ "" = a)%string.
Proof. induction a as [|x a IH]; cbn; [reflexivity | now rewrite IH]. Qed.

Lemma encode_app (a b : string) :
  PyStr.encode (a ++ b) = (PyStr.encode a ++ PyStr.encode b)%string.
Proof.
  induction a as [|x a IH]; [reflexivity|].
  cbn [append PyStr.encode]. rewrite IH.
  destruct (nat_of_ascii x <? 128)%nat; reflexivity.
Qed.

Lemma send_json_run {lib : PyLib} status data request_id st :
  _send_json status data request_id st
  = (Ok tt, add_events (json_events status data request_id) st).
Proof.
  unfold _send_json, json_events, add_events. run_monad.
  destruct request_id as [[|c r]|]; cbn; rewrite <- !app_assoc; reflexivity.
Qed.

Lemma send_json_metrics {lib : PyLib} status data request_id st :
  metrics (snd (_send_json status data request_id st)) = metrics st.
Proof. rewrite send_json_run. reflexivity. Qed.

Lemma py_add_zero a : py_add a (JInt 0) = Ok (plus_zero a).
Proof.
  destruct a as [n|g]; cbn.
  - now rewrite Z.add_0_r.
  - reflexivity.
Qed.

Lemma record_metrics_ok status latency x y st p c :
  py_add (prompt_tokens_total (metrics st)) x = Ok p ->
  py_add (completion_tokens_total (metrics st)) y = Ok c ->
  _record_metrics status latency x y st
  = (Ok tt, set_metrics (recorded status latency p c (metrics st)) st).
Proof.
  intros Hp Hc. unfold _record_metrics, set_metrics, recorded. run_monad. cbn.
  rewrite Hp. cbn. rewrite Hc. cbn.
  destruct (400 <=? status); reflexivity.
Qed.

Lemma record_metrics_zero status latency st :
  _record_metrics status latency (JInt 0) (JInt 0) st
  = (Ok tt,
     set_metrics
       (recorded status latency
          (plus_zero (prompt_tokens_total (metrics st)))
          (plus_zero (completion_tokens_total (metrics st)))
          (metrics st)) st).
Proof. apply record_metrics_ok; apply py_add_zero. Qed.

(** Whatever its arguments, and whether or not it raises,
    [_record_metrics] writes nothing to the client, calls no backend and
    counts the request. *)
Lemma record_metrics_frame status latency x y st :
  let st' := snd (_record_metrics status latency x y st) in
  wire st' = wire st /\ calls st' = calls st
  /\ request_count (metrics st') = request_count (metrics st) + 1.
Proof.
  unfold _record_metrics. run_monad. cbn.
  destruct (py_add (prompt_tokens_total (metrics st)) x) as [p|ex]; cbn; [|auto].
  destruct (py_add (completion_tokens_total (metrics st)) y) as [c|ex]; cbn; [|auto].
  destruct (400 <=? status); cbn; auto.
Qed.

(** ** GET routes and unknown routes *)

Lemma proxy_models_metrics {lib : PyLib} e st :
  metrics (snd (_proxy_models e st)) = metrics st.
Proof.
  unfold _proxy_models, client_get.
  destruct (backend_url e) as [base|]; [|reflexivity].
  run_monad. cbn.
  destruct (on_get e) as [[|]|r]; cbn.
  - now rewrite send_json_run.
  - now rewrite send_json_run.
  - destruct (decoded r) as [d|]; cbn; [now rewrite send_json_run | reflexivity].
Qed.

(** C10.  Serving any GET request (among them [/healthz], [/metrics],
    [/v1/models] and the 404 for an unknown path), and serving a POST to
    any path other than [/v1/chat/completions], leaves all five metrics
    counters as they were. *)
Theorem only_chat_completions_touches_metrics {lib : PyLib} (e : env) (st : state) :
  metrics (snd (do_GET e st)) = metrics st
  /\ (path e <> "/v1/chat/completions" -> metrics (snd (do_POST e st)) = metrics st).
Proof.
  split.
  - unfold do_GET.
    destruct (String.eqb (path e) "/healthz"); [apply send_json_metrics|].
    destruct (String.eqb (path e) "/v1/models").
    + destruct (configured_backend e);
        [apply proxy_models_metrics | apply send_json_metrics].
    + destruct (String.eqb (path e) "/metrics"); [|apply send_json_metrics].
      run_monad. apply send_json_metrics.
  - intros Hpath. unfold do_POST.
    destruct (String.eqb_spec (path e) "/v1/chat/completions"); [contradiction|].
    apply send_json_metrics.
Qed.

(** After two echo requests, [GET /metrics] and a POST to an unknown
    path leave the counters at two requests. *)
Lemma only_chat_completions_touches_metrics_witness :
  metrics (snd (do_GET (lib := plain_lib) (with_path "/metrics" blank_env)
                  (serve (lib := plain_lib)
                     [chat_env hello_payload; chat_env hello_payload] initial_state)))
  = metrics (serve (lib := plain_lib)
               [chat_env hello_payload; chat_env hello_payload] initial_state)
  /\ metrics (snd (do_POST (lib := plain_lib) (with_path "/unknown" blank_env)
                     (serve (lib := plain_lib)
                        [chat_env hello_payload; chat_env hello_payload] initial_state)))
     = metrics (serve (lib := plain_lib)
                  [chat_env hello_payload; chat_env hello_payload] initial_state).
Proof.
  destruct (only_chat_completions_touches_metrics (lib := plain_lib)
              (with_path "/metrics" blank_env)
              (serve (lib := plain_lib)
                 [chat_env hello_payload; chat_env hello_payload] initial_state))
    as [Hget _].
  destruct (only_chat_completions_touches_metrics (lib := plain_lib)
              (with_path "/unknown" blank_env)
              (serve (lib := plain_lib)
                 [chat_env hello_payload; chat_env hello_payload] initial_state))
    as [_ Hpost].
  split; [exact Hget | apply Hpost; discriminate].
Defined.

(** ** Request classification *)

Lemma scan_prompt_snoc (msgs : list json) (m : json) :
  well_formed_message m = true ->
  scan_prompt (m :: msgs)
  = if role_is_user m then Ok (JStr (text_content m)) else scan_prompt msgs.
Proof.
  destruct m as [| | | | |l|d]; cbn; try discriminate.
  intros Hwf. destruct (dict_get "role" d) as [r|]; cbn.
  - destruct (eq_str r "user"); [|reflexivity].
    destruct (dict_get "content" d) as [[]|]; try discriminate; reflexivity.
  - reflexivity.
Qed.

Lemma last_user_content_from_app acc msgs m :
  last_user_content_from acc (msgs ++ [m])
  = if role_is_user m then text_content m else last_user_content_from acc msgs.
Proof.
  revert acc. induction msgs as [|x rest IH]; intros acc; cbn.
  - reflexivity.
  - apply IH.
Qed.

(** The reversed scan with [break] finds what the front-to-back reading
    describes. *)
Lemma scan_prompt_finds_last_user msgs :
  forallb well_formed_message msgs = true ->
  scan_prompt (rev msgs) = Ok (JStr (last_user_content msgs)).
Proof.
  induction msgs as [|m rest IH] using rev_ind; intros Hwf.
  - reflexivity.
  - rewrite forallb_app in Hwf. apply andb_true_iff in Hwf as [Hrest Hm].
    cbn in Hm. rewrite andb_true_r in Hm.
    rewrite rev_unit, scan_prompt_snoc by exact Hm.
    unfold last_user_content. rewrite last_user_content_from_app.
    destruct (role_is_user m); [reflexivity|].
    apply IH, Hrest.
Qed.

(** Past validation, [_handle_chat_completions] scans for the prompt and
    dispatches on the configured backend. *)
Lemma chat_completions_dispatch {lib : PyLib} e st d msgs :
  body e = Some (JDict d) ->
  dict_get "messages" d = Some (JList msgs) ->
  msgs <> [] ->
  _handle_chat_completions e st
  = match scan_prompt (rev msgs) with
    | Raise ex => (Raise ex, st)
    | Ok prompt =>
        match configured_backend e with
        | Some _ => _handle_backend e (_get_request_id e) (JDict d) (stream_flag d) st
        | None => _handle_echo e (_get_request_id e) prompt (stream_flag d) st
        end
    end.
Proof.
  intros Hbody Hmsgs Hne. unfold _handle_chat_completions, _read_json_body, stream_flag.
  rewrite Hbody. run_monad. cbn. rewrite Hmsgs.
  destruct msgs as [|m rest]; [contradiction|]. cbn [isinstance_list truthy negb orb items].
  destruct (scan_prompt (rev (m :: rest))); [|reflexivity].
  destruct (configured_backend e); reflexivity.
Qed.

(** ** Echo mode *)

Lemma split_from_length cur s :
  List.length (PyStr.split_from cur s)
  = match cur with
    | Some _ => S (PyStr.count_tokens_from true s)
    | None => PyStr.count_tokens_from false s
    end.
Proof.
  revert cur. induction s as [|c rest IH]; intros [w|]; cbn; try reflexivity;
    destruct (PyStr.isspace c); cbn; rewrite IH; reflexivity.
Qed.

(** [len(s.split())] is the whitespace-token count of [s]. *)
Lemma split_length s : List.length (PyStr.split s) = PyStr.count_tokens s.
Proof. apply (split_from_length None). Qed.

(** The events of one [_send_sse_echo] call. *)
Lemma send_sse_echo_run {lib : PyLib} request_id content st :
  _send_sse_echo request_id content st
  = (Ok tt, add_events (sse_echo_events request_id content) st).
Proof.
  unfold _send_sse_echo, sse_echo_events, add_events. run_monad. cbn.
  rewrite <- !app_assoc. reflexivity.
Qed.

Lemma int_totals_inv m :
  int_totals m = true ->
  exists p c, prompt_tokens_total m = PInt p /\ completion_tokens_total m = PInt c.
Proof.
  unfold int_totals.
  destruct (prompt_tokens_total m) as [p|]; [|discriminate].
  destruct (completion_tokens_total m) as [c|]; [|discriminate].
  eauto.
Qed.

Lemma truthy_list_nonempty msgs : truthy (JList msgs) = true -> msgs <> [].
Proof. destruct msgs; [discriminate | intros _; discriminate]. Qed.

(** What an echo request does once its prompt is a string. *)
Lemma handle_echo_run {lib : PyLib} e rid p stream st pt ct :
  prompt_tokens_total (metrics st) = PInt pt ->
  completion_tokens_total (metrics st) = PInt ct ->
  _handle_echo e rid (JStr p) stream st
  = (Ok tt,
     set_metrics
       (recorded 200 (latency_ms e)
          (PInt (pt + Z.of_nat (PyStr.count_tokens p)))
          (PInt (ct + Z.of_nat (PyStr.count_tokens ("Echo: " ++ p)%string)))
          (metrics st))
       (add_events
          (if truthy stream then sse_echo_events rid ("Echo: " ++ p)%string
           else json_events 200
                  (build_response rid ("Echo: " ++ p)%string
                     (Z.of_nat (PyStr.count_tokens p))
                     (Z.of_nat (PyStr.count_tokens ("Echo: " ++ p)%string)))
                  (Some rid)) st)).
Proof.
  intros Hp Hc.
  unfold _handle_echo. rewrite !split_length.
  unfold bind at 1.
  destruct (truthy stream).
  - rewrite send_sse_echo_run.
    erewrite record_metrics_ok;
      [reflexivity | cbn; rewrite Hp; reflexivity | cbn; rewrite Hc; reflexivity].
  - rewrite send_json_run.
    erewrite record_metrics_ok;
      [reflexivity | cbn; rewrite Hp; reflexivity | cbn; rewrite Hc; reflexivity].
Qed.

(** A valid echo request, streaming or not: the prompt is found, the
    reply is sent, the metrics are recorded. *)
Lemma echo_request_run {lib : PyLib} e st d msgs :
  path e = "/v1/chat/completions" ->
  configured_backend e = None ->
  body e = Some (JDict d) ->
  dict_get "messages" d = Some (JList msgs) ->
  truthy (JList msgs) = true ->
  forallb well_formed_message msgs = true ->
  do_POST e st
  = _handle_echo e (_get_request_id e) (JStr (last_user_content msgs)) (stream_flag d) st.
Proof.
  intros Hpath Hecho Hbody Hmsgs Hne Hwf.
  unfold do_POST. rewrite Hpath, String.eqb_refl.
  rewrite (chat_completions_dispatch e st d msgs Hbody Hmsgs (truthy_list_nonempty _ Hne)).
  rewrite (scan_prompt_finds_last_user msgs Hwf), Hecho. reflexivity.
Qed.

(** Where an echo request's reply goes, whatever the counters hold. *)
Lemma handle_echo_wire {lib : PyLib} e rid p stream st :
  wire (snd (_handle_echo e rid (JStr p) stream st))
  = wire st
    ++ (if truthy stream then sse_echo_events rid ("Echo: " ++ p)%string
        else json_events 200
               (build_response rid ("Echo: " ++ p)%string
                  (Z.of_nat (PyStr.count_tokens p))
                  (Z.of_nat (PyStr.count_tokens ("Echo: " ++ p)%string)))
               (Some rid)).
Proof.
  unfold _handle_echo. rewrite !split_length. unfold bind at 1.
  destruct (truthy stream).
  - rewrite send_sse_echo_run.
    now rewrite (proj1 (record_metrics_frame _ _ _ _ _)).
  - rewrite send_json_run.
    now rewrite (proj1 (record_metrics_frame _ _ _ _ _)).
Qed.

Lemma chat_route {lib : PyLib} e st :
  path e = "/v1/chat/completions" -> do_POST e st = _handle_chat_completions e st.
Proof. intros Hpath. unfold do_POST. now rewrite Hpath, String.eqb_refl. Qed.

Lemma responses_of_json_events {lib : PyLib} status data request_id :
  responses_of (json_events status data request_id)
  = [json_response status data request_id].
Proof.
  unfold json_events, json_response.
  destruct request_id as [[|c r]|]; cbn; rewrite append_nil_r; reflexivity.
Qed.



(** The one response an echo stream consists of. *)
Lemma responses_of_sse_echo {lib : PyLib} rid content :
  responses_of (sse_echo_events rid content)
  = [{| r_status := 200;
        r_headers := [("Content-Type", "text/event-stream");
                      ("Cache-Control", "no-cache");
                      ("X-Request-ID", rid)];
        r_body := ("data: " ++ PyStr.encode (json_dumps (echo_chunk rid content))
                   ++ PyStr.LF ++ PyStr.LF
                   ++ "data: [DONE]" ++ PyStr.LF ++ PyStr.LF)%string |}].
Proof.
  unfold sse_echo_events. cbn [responses_of headers_until_next body_until_next].
  rewrite append_nil_r, encode_app, encode_app, append_assoc, append_assoc.
  reflexivity.
Qed.



(** ** Backend mode *)

Lemma for_each_write_run lines st :
  for_each (fun line => wfile_write (PyStr.encode (line ++ PyStr.LF)%string)) lines st
  = (Ok tt, add_events (relayed_lines lines) st).
Proof.
  revert st. induction lines as [|l rest IH]; intros st.
  - cbn. unfold ret, add_events. rewrite app_nil_r. destruct st; reflexivity.
  - cbn [for_each relayed_lines map]. run_monad. rewrite IH.
    unfold add_events. cbn. rewrite <- app_assoc. reflexivity.
Qed.

(** A buffered proxy call that fails: the failure is translated, once. *)
Lemma backend_post_fails {lib : PyLib} e rid payload stream st base f :
  backend_url e = Some base ->
  truthy stream = false ->
  on_post e = CallFails f ->
  _handle_backend e rid payload stream st
  = (Ok tt,
     add_events (json_events (failure_status f) (error_body (failure_code f)) (Some rid))
       (set_metrics (recorded_zero (failure_status f) (latency_ms e) (metrics st))
          (add_call (ClientPost (chat_url base) payload 60%float) st))).
Proof.
  intros Hurl Hstream Hpost.
  unfold _handle_backend, _proxy_non_stream, client_post. rewrite Hurl, Hstream, Hpost.
  run_monad. cbn.
  destruct f; cbn; rewrite record_metrics_zero, send_json_run; reflexivity.
Qed.

(** A buffered proxy call that returns 5xx. *)
Lemma backend_post_5xx {lib : PyLib} e rid payload stream st base r :
  backend_url e = Some base ->
  truthy stream = false ->
  on_post e = CallReturns r ->
  (500 <=? status_code r) = true ->
  _handle_backend e rid payload stream st
  = (Ok tt,
     add_events (json_events 502 (error_body "backend_error") (Some rid))
       (set_metrics (recorded_zero 502 (latency_ms e) (metrics st))
          (add_call (ClientPost (chat_url base) payload 60%float) st))).
Proof.
  intros Hurl Hstream Hpost H5.
  unfold _handle_backend, _proxy_non_stream, client_post. rewrite Hurl, Hstream, Hpost.
  run_monad. cbn. rewrite H5.
  rewrite record_metrics_zero, send_json_run; reflexivity.
Qed.

(** A buffered proxy call whose body does not decode. *)
Lemma backend_post_undecodable {lib : PyLib} e rid payload stream st base r :
  backend_url e = Some base ->
  truthy stream = false ->
  on_post e = CallReturns r ->
  (500 <=? status_code r) = false ->
  decoded r = None ->
  _handle_backend e rid payload stream st
  = (Ok tt,
     add_events (json_events 502 (error_body "backend_invalid_response") (Some rid))
       (set_metrics (recorded_zero 502 (latency_ms e) (metrics st))
          (add_call (ClientPost (chat_url base) payload 60%float) st))).
Proof.
  intros Hurl Hstream Hpost H5 Hdec.
  unfold _handle_backend, _proxy_non_stream, client_post. rewrite Hurl, Hstream, Hpost.
  run_monad. cbn. rewrite H5, Hdec.
  rewrite record_metrics_zero, send_json_run; reflexivity.
Qed.

Lemma dict_get_set_same k v d : dict_get k (dict_set k v d) = Some v.
Proof.
  induction d as [|[k' v'] rest IH]; cbn.
  - now rewrite String.eqb_refl.
  - destruct (String.eqb k k') eqn:E; cbn; rewrite E; [reflexivity | exact IH].
Qed.

Lemma dict_get_set_other k k' v d :
  String.eqb k k' = false -> dict_get k (dict_set k' v d) = dict_get k d.
Proof.
  intros Hne. induction d as [|[k0 v0] rest IH]; cbn.
  - now rewrite Hne.
  - destruct (String.eqb k' k0) eqn:E; cbn.
    + apply String.eqb_eq in E. subst k0. now rewrite Hne.
    + destruct (String.eqb k k0); [reflexivity | exact IH].
Qed.

(** A buffered proxy call that returns a decodable object below 500. *)
Lemma backend_post_relays {lib : PyLib} e rid payload stream st base r data usage p c :
  backend_url e = Some base ->
  truthy stream = false ->
  on_post e = CallReturns r ->
  (500 <=? status_code r) = false ->
  decoded r = Some (JDict data) ->
  usage_of data = JDict usage ->
  py_add (prompt_tokens_total (metrics st)) (token_count "prompt_tokens" usage) = Ok p ->
  py_add (completion_tokens_total (metrics st)) (token_count "completion_tokens" usage) = Ok c ->
  _handle_backend e rid payload stream st
  = (Ok tt,
     add_events
       (json_events (status_code r) (JDict (dict_set "id" (JStr rid) data)) (Some rid))
       (set_metrics (recorded (status_code r) (latency_ms e) p c (metrics st))
          (add_call (ClientPost (chat_url base) payload 60%float) st))).
Proof.
  intros Hurl Hstream Hpost H5 Hdec Husage Hp Hc.
  unfold _handle_backend, _proxy_non_stream, client_post. rewrite Hurl, Hstream, Hpost.
  run_monad. cbn. rewrite H5, Hdec. cbn.
  rewrite dict_get_set_other by reflexivity.
  unfold usage_of in Husage. rewrite Husage. cbn.
  unfold token_count in Hp, Hc.
  erewrite record_metrics_ok; [| cbn; exact Hp | cbn; exact Hc].
  rewrite send_json_run. reflexivity.
Qed.

(** A streaming proxy call that fails before a response arrives. *)
Lemma backend_stream_fails_to_open {lib : PyLib} e rid payload stream st base f :
  backend_url e = Some base ->
  truthy stream = true ->
  on_stream e = StreamFails f ->
  _handle_backend e rid payload stream st
  = (Ok tt,
     add_events (json_events (failure_status f) (error_body (failure_code f)) (Some rid))
       (set_metrics (recorded_zero (failure_status f) (latency_ms e) (metrics st))
          (add_call (ClientStream (chat_url base) payload 60%float) st))).
Proof.
  intros Hurl Hstream Hopen.
  unfold _handle_backend, _proxy_stream, client_stream. rewrite Hurl, Hstream, Hopen.
  run_monad. cbn.
  destruct f; cbn; rewrite record_metrics_zero, send_json_run; reflexivity.
Qed.

(** A streaming proxy call answered 5xx: a buffered JSON error. *)
Lemma backend_stream_5xx {lib : PyLib} e rid payload stream st base r :
  backend_url e = Some base ->
  truthy stream = true ->
  on_stream e = StreamOpens r ->
  (500 <=? stream_status_code r) = true ->
  _handle_backend e rid payload stream st
  = (Ok tt,
     add_events (json_events 502 (error_body "backend_error") (Some rid))
       (set_metrics (recorded_zero 502 (latency_ms e) (metrics st))
          (add_call (ClientStream (chat_url base) payload 60%float) st))).
Proof.
  intros Hurl Hstream Hopen H5.
  unfold _handle_backend, _proxy_stream, client_stream. rewrite Hurl, Hstream, Hopen.
  run_monad. cbn. rewrite H5.
  rewrite record_metrics_zero, send_json_run; reflexivity.
Qed.

(** A stream relayed to its natural end. *)
Lemma backend_stream_relays {lib : PyLib} e rid payload stream st base r :
  backend_url e = Some base ->
  truthy stream = true ->
  on_stream e = StreamOpens r ->
  (500 <=? stream_status_code r) = false ->
  stream_failure r = None ->
  _handle_backend e rid payload stream st
  = (Ok tt,
     set_metrics (recorded_zero 200 (latency_ms e) (metrics st))
       (add_events
          (stream_head_events rid ++ relayed_lines (stream_lines r)
           ++ [WfileWrite PyStr.LF; WfileFlush])
          (add_call (ClientStream (chat_url base) payload 60%float) st))).
Proof.
  intros Hurl Hstream Hopen H5 Hend.
  unfold _handle_backend, _proxy_stream, client_stream. rewrite Hurl, Hstream, Hopen.
  run_monad. cbn. rewrite H5. rewrite for_each_write_run, Hend. cbn.
  rewrite record_metrics_zero. unfold set_metrics, add_events, add_call. cbn.
  rewrite <- !app_assoc. reflexivity.
Qed.

(** A stream that breaks after the 200 head and some lines went out: the
    translated error is written behind them. *)
Lemma backend_stream_breaks {lib : PyLib} e rid payload stream st base r f :
  backend_url e = Some base ->
  truthy stream = true ->
  on_stream e = StreamOpens r ->
  (500 <=? stream_status_code r) = false ->
  stream_failure r = Some f ->
  _handle_backend e rid payload stream st
  = (Ok tt,
     add_events
       (stream_head_events rid ++ relayed_lines (stream_lines r)
        ++ json_events (failure_status f) (error_body (failure_code f)) (Some rid))
       (set_metrics (recorded_zero (failure_status f) (latency_ms e) (metrics st))
          (add_call (ClientStream (chat_url base) payload 60%float) st))).
Proof.
  intros Hurl Hstream Hopen H5 Hend.
  unfold _handle_backend, _proxy_stream, client_stream. rewrite Hurl, Hstream, Hopen.
  run_monad. cbn. rewrite H5. rewrite for_each_write_run, Hend. cbn.
  destruct f; cbn; rewrite record_metrics_zero, send_json_run;
    unfold set_metrics, add_events, add_call; cbn;
    rewrite <- !app_assoc; reflexivity.
Qed.

(** ** Backend failures *)

Lemma scan_prompt_total msgs :
  (forall m, In m msgs -> is_object m = true) ->
  exists prompt, scan_prompt msgs = Ok prompt.
Proof.
  induction msgs as [|m rest IH]; intros Hobj.
  - eexists; reflexivity.
  - assert (Hm : is_object m = true) by (apply Hobj; now left).
    destruct m as [| | | | |l|d]; try discriminate. cbn.
    destruct (match dict_get "role" d with Some v => v | None => JNull end) as [| | | |r| |];
      cbn; try (apply IH; intros; apply Hobj; now right).
    destruct (String.eqb r "user"); [eexists; reflexivity|].
    apply IH; intros; apply Hobj; now right.
Qed.

Lemma configured_backend_url e base :
  configured_backend e = Some base -> backend_url e = Some base.
Proof.
  unfold configured_backend. destruct (backend_url e) as [u|]; [|discriminate].
  destruct (String.eqb u ""); [discriminate|]. intros H; exact H.
Qed.

(** A request with a non-empty list of objects as [messages] reaches
    [_handle_backend] when a backend is configured. *)
Lemma backend_request_run {lib : PyLib} e st d msgs base :
  path e = "/v1/chat/completions" ->
  body e = Some (JDict d) ->
  dict_get "messages" d = Some (JList msgs) ->
  truthy (JList msgs) = true ->
  forallb is_object msgs = true ->
  configured_backend e = Some base ->
  do_POST e st = _handle_backend e (_get_request_id e) (JDict d) (stream_flag d) st.
Proof.
  intros Hpath Hbody Hmsgs Hne Hobj Hbase.
  rewrite (chat_route e st Hpath).
  rewrite (chat_completions_dispatch e st d msgs Hbody Hmsgs (truthy_list_nonempty _ Hne)).
  destruct (scan_prompt_total (rev msgs)) as [prompt Hscan].
  - intros m Hin. apply in_rev in Hin.
    rewrite forallb_forall in Hobj. now apply Hobj.
  - now rewrite Hscan, Hbase.
Qed.

(** C2, as the code has it.  For a proxied chat-completion request, a
    timeout of the outbound call is answered 504 [gateway_timeout] and any
    other connection failure 502 [backend_unavailable], after exactly one
    backend call, and the metrics are recorded once with that status.
    This is the only response when the failure comes before the gateway
    has begun one: always for a buffered call, and for a stream that fails
    to open.  When a stream breaks after the 200 head went out, the error
    response is written behind the head and the lines relayed so far. *)
Theorem backend_failure_translated_without_retry {lib : PyLib} (e : env) (st : state)
    (d : list (string * json)) (msgs : list json) (base : string) (f : httpx_failure) :
  path e = "/v1/chat/completions" ->
  body e = Some (JDict d) ->
  dict_get "messages" d = Some (JList msgs) ->
  truthy (JList msgs) = true ->
  forallb is_object msgs = true ->
  configured_backend e = Some base ->
  let rid := _get_request_id e in
  let reply := json_events (failure_status f) (error_body (failure_code f)) (Some rid) in
  let counted := set_metrics (recorded_zero (failure_status f) (latency_ms e) (metrics st)) in
  responses_of reply
  = [json_response (failure_status f) (error_body (failure_code f)) (Some rid)]
  /\ (truthy (stream_flag d) = false ->
      on_post e = CallFails f ->
      do_POST e st
      = (Ok tt,
         add_events reply
           (counted (add_call (ClientPost (chat_url base) (JDict d) 60%float) st))))
  /\ (truthy (stream_flag d) = true ->
      on_stream e = StreamFails f ->
      do_POST e st
      = (Ok tt,
         add_events reply
           (counted (add_call (ClientStream (chat_url base) (JDict d) 60%float) st))))
  /\ (forall r,
      truthy (stream_flag d) = true ->
      on_stream e = StreamOpens r ->
      (500 <=? stream_status_code r) = false ->
      stream_failure r = Some f ->
      do_POST e st
      = (Ok tt,
         add_events (stream_head_events rid ++ relayed_lines (stream_lines r) ++ reply)
           (counted (add_call (ClientStream (chat_url base) (JDict d) 60%float) st)))).
Proof.
  intros Hpath Hbody Hmsgs Hne Hobj Hbase. cbn zeta.
  pose proof (configured_backend_url e base Hbase) as Hurl.
  rewrite (backend_request_run e st d msgs base) by assumption.
  split; [apply responses_of_json_events|].
  split; [|split].
  - intros Hstream Hpost. now apply backend_post_fails.
  - intros Hstream Hopen. now apply backend_stream_fails_to_open.
  - intros r Hstream Hopen H5 Hend. now apply backend_stream_breaks.
Qed.

(** The tests' mocked timeout: one 504, one backend call. *)
Lemma backend_failure_translated_without_retry_witness :
  map r_status
    (responses_of
       (wire (snd (do_POST (lib := plain_lib) (backend_env hello_payload) initial_state))))
  = [504]
  /\ List.length
       (calls (snd (do_POST (lib := plain_lib) (backend_env hello_payload) initial_state)))
     = 1%nat.
Proof.
  destruct (backend_failure_translated_without_retry (lib := plain_lib)
              (backend_env hello_payload) initial_state
              [("model", JStr "test"); ("messages", hello_messages)]
              [JDict [("role", JStr "user"); ("content", JStr "hello")]]
              "http://test-backend" TimedOut
              eq_refl eq_refl eq_refl eq_refl eq_refl eq_refl) as (_ & Hpost & _).
  rewrite (Hpost eq_refl eq_refl). split; reflexivity.
Defined.

(** C2 as stated fails: when the upstream stream times out after the
    gateway has sent its 200 head, the client is handed a 200 response
    and, behind it, a 504 one. *)
Lemma timeout_after_stream_began_yields_two_responses :
  map r_status
    (responses_of
       (wire (snd (do_POST (lib := plain_lib)
                     (with_stream broken_stream (backend_env hello_stream_payload))
                     initial_state))))
  = [200; 504].
Proof. reflexivity. Qed.

(** ** Every run of the chat handler *)

Lemma record_metrics_result status latency x y st :
  _record_metrics status latency x y st
  = match py_add (prompt_tokens_total (metrics st)) x with
    | Raise ex =>
        (Raise ex, set_metrics (counted_only latency (prompt_tokens_total (metrics st)) (metrics st)) st)
    | Ok p =>
        match py_add (completion_tokens_total (metrics st)) y with
        | Raise ex => (Raise ex, set_metrics (counted_only latency p (metrics st)) st)
        | Ok c => (Ok tt, set_metrics (recorded status latency p c (metrics st)) st)
        end
    end.
Proof.
  unfold _record_metrics, set_metrics, recorded, counted_only. run_monad. cbn.
  destruct (py_add (prompt_tokens_total (metrics st)) x) as [p|ex]; cbn; [|reflexivity].
  destruct (py_add (completion_tokens_total (metrics st)) y) as [c|ex]; cbn; [|reflexivity].
  destruct (400 <=? status); reflexivity.
Qed.

Lemma float_of_int_raises z ex : float_of_int z = Raise ex -> ex = OverflowError.
Proof.
  unfold float_of_int.
  destruct (SpecFloat.binary_normalize FloatOps.prec FloatOps.emax z 0 false);
    intros H; inversion H; reflexivity.
Qed.

Lemma py_add_raises a x ex :
  py_add a x = Raise ex -> ex = TypeError \/ ex = OverflowError.
Proof.
  destruct a as [n|g], x as [| b | z | f | s | l | d]; cbn; intros H;
    try (inversion H; now left).
  - destruct (float_of_int n) eqn:E; inversion H; subst.
    right. eapply float_of_int_raises; eauto.
  - destruct (float_of_int z) eqn:E; inversion H; subst.
    right. eapply float_of_int_raises; eauto.
Qed.

Lemma final_status_from acc w :
  fold_left (fun acc ev => match ev with SendResponse s => Some s | _ => acc end) w acc
  = match final_status w with
    | Some s => Some s
    | None => acc
    end.
Proof.
  unfold final_status. revert acc.
  induction w as [|ev rest IH]; intros acc; cbn; [reflexivity|].
  rewrite IH. rewrite (IH (match ev with SendResponse s => Some s | _ => None end)).
  destruct (fold_left _ rest None); [reflexivity|].
  destruct ev; reflexivity.
Qed.

Lemma final_status_app a b :
  final_status (a ++ b)
  = match final_status b with
    | Some s => Some s
    | None => final_status a
    end.
Proof. unfold final_status at 1. rewrite fold_left_app. apply final_status_from. Qed.

Lemma final_status_json_events {lib : PyLib} status data rid :
  final_status (json_events status data rid) = Some status.
Proof. destruct rid as [[|c r]|]; reflexivity. Qed.

Lemma final_status_relayed lines : final_status (relayed_lines lines) = None.
Proof.
  induction lines as [|l rest IH]; [reflexivity|].
  change (relayed_lines (l :: rest))
    with ([WfileWrite (PyStr.encode (l ++ PyStr.LF)%string)] ++ relayed_lines rest).
  rewrite final_status_app, IH. reflexivity.
Qed.

Lemma final_status_stream rid lines :
  final_status (stream_head_events rid ++ relayed_lines lines ++ [WfileWrite PyStr.LF; WfileFlush])
  = Some 200.
Proof. rewrite !final_status_app, final_status_relayed. reflexivity. Qed.

Lemma final_status_broken_stream {lib : PyLib} rid lines status data r :
  final_status (stream_head_events rid ++ relayed_lines lines ++ json_events status data r)
  = Some status.
Proof. rewrite !final_status_app, final_status_json_events. reflexivity. Qed.

Ltac replied evs0 cs0 :=
  eapply outcome_replied with (evs := evs0) (cs := cs0);
  [ assumption
  | 
  | first [apply final_status_json_events | apply final_status_stream
          | apply final_status_broken_stream | reflexivity]
  | reflexivity
  | cbn; rewrite ?app_nil_r; reflexivity
  | cbn; rewrite ?app_nil_r; reflexivity
  | cbn; lia ].

Ltac raised evs0 cs0 :=
  eapply outcome_raised with (evs := evs0) (cs := cs0);
  [ assumption
  | first [apply reply_nothing | idtac]
  | cbn; lia
  | reflexivity
  | cbn; rewrite ?app_nil_r; reflexivity
  | cbn; rewrite ?app_nil_r; reflexivity
  | cbn; lia ].

Lemma handle_backend_outcome {lib : PyLib} e payload stream st base :
  rejection e = None ->
  backend_url e = Some base ->
  chat_outcome e st (_handle_backend e (_get_request_id e) payload stream st).
Proof.
  intros Hrej Hurl.
  destruct (truthy stream) eqn:Hstream.
  - destruct (on_stream e) as [f|r] eqn:Hopen.
    + rewrite (backend_stream_fails_to_open e _ payload stream st base f) by assumption.
      replied (json_events (failure_status f) (error_body (failure_code f))
                 (Some (_get_request_id e)))
              [ClientStream (chat_url base) payload 60%float].
      apply reply_json. now left.
    + destruct (500 <=? stream_status_code r) eqn:H5.
      * rewrite (backend_stream_5xx e _ payload stream st base r) by assumption.
        replied (json_events 502 (error_body "backend_error") (Some (_get_request_id e)))
                [ClientStream (chat_url base) payload 60%float].
        apply reply_json. now left.
      * destruct (stream_failure r) as [f|] eqn:Hend.
        -- rewrite (backend_stream_breaks e _ payload stream st base r f) by assumption.
           replied (stream_head_events (_get_request_id e) ++ relayed_lines (stream_lines r)
                    ++ json_events (failure_status f) (error_body (failure_code f))
                         (Some (_get_request_id e)))
                   [ClientStream (chat_url base) payload 60%float].
           now apply reply_broken_stream.
        -- rewrite (backend_stream_relays e _ payload stream st base r) by assumption.
           replied (stream_head_events (_get_request_id e) ++ relayed_lines (stream_lines r)
                    ++ [WfileWrite PyStr.LF; WfileFlush])
                   [ClientStream (chat_url base) payload 60%float].
           now apply reply_stream.
  - destruct (on_post e) as [f|r] eqn:Hpost.
    + rewrite (backend_post_fails e _ payload stream st base f) by assumption.
      replied (json_events (failure_status f) (error_body (failure_code f))
                 (Some (_get_request_id e)))
              [ClientPost (chat_url base) payload 60%float].
      apply reply_json. now left.
    + destruct (500 <=? status_code r) eqn:H5.
      * rewrite (backend_post_5xx e _ payload stream st base r) by assumption.
        replied (json_events 502 (error_body "backend_error") (Some (_get_request_id e)))
                [ClientPost (chat_url base) payload 60%float].
        apply reply_json. now left.
      * destruct (decoded r) as [data|] eqn:Hdec.
        2:{ rewrite (backend_post_undecodable e _ payload stream st base r) by assumption.
            replied (json_events 502 (error_body "backend_invalid_response")
                       (Some (_get_request_id e)))
                    [ClientPost (chat_url base) payload 60%float].
            apply reply_json. now left. }
        unfold _handle_backend, _proxy_non_stream, client_post.
        rewrite Hurl, Hstream, Hpost. run_monad. cbn. rewrite H5, Hdec. cbn.
        destruct data as [| | | | | |dd]; cbn;
          try (raised (@nil wire_event) [ClientPost (chat_url base) payload 60%float]).
        rewrite dict_get_set_other by reflexivity.
        destruct (match dict_get "usage" dd with Some v => v | None => JDict [] end)
          as [| | | | | |usage]; cbn;
          try (raised (@nil wire_event) [ClientPost (chat_url base) payload 60%float]).
        rewrite record_metrics_result. cbn.
        destruct (py_add (prompt_tokens_total (metrics st)) _) as [p|ex] eqn:Hp.
        2:{ apply py_add_raises in Hp as [-> | ->]; cbn;
              raised (@nil wire_event) [ClientPost (chat_url base) payload 60%float]. }
        destruct (py_add (completion_tokens_total (metrics st)) _) as [c|ex] eqn:Hc.
        2:{ apply py_add_raises in Hc as [-> | ->]; cbn;
              raised (@nil wire_event) [ClientPost (chat_url base) payload 60%float]. }
        rewrite send_json_run.
        replied (json_events (status_code r)
                   (JDict (dict_set "id" (JStr (_get_request_id e)) dd))
                   (Some (_get_request_id e)))
                [ClientPost (chat_url base) payload 60%float].
        apply reply_json. right. cbn. now rewrite dict_get_set_same.
Qed.

Lemma handle_echo_outcome {lib : PyLib} e prompt stream st :
  rejection e = None ->
  chat_outcome e st (_handle_echo e (_get_request_id e) prompt stream st).
Proof.
  intros Hrej.
  destruct prompt as [| | | |p| |];
    try (cbn; unfold raise; raised (@nil wire_event) (@nil backend_call)).
  unfold _handle_echo. rewrite !split_length. unfold bind at 1.
  destruct (truthy stream).
  - rewrite send_sse_echo_run, record_metrics_result. cbn.
    destruct (py_add (prompt_tokens_total (metrics st)) _) as [pt|ex] eqn:Hp.
    2:{ raised (sse_echo_events (_get_request_id e) ("Echo: " ++ p)%string)
               (@nil backend_call).
        apply reply_sse. }
    destruct (py_add (completion_tokens_total (metrics st)) _) as [ct|ex] eqn:Hc.
    2:{ raised (sse_echo_events (_get_request_id e) ("Echo: " ++ p)%string)
               (@nil backend_call).
        apply reply_sse. }
    replied (sse_echo_events (_get_request_id e) ("Echo: " ++ p)%string)
            (@nil backend_call).
    apply reply_sse.
  - rewrite send_json_run, record_metrics_result. cbn.
    pose (reply := json_events 200
                     (build_response (_get_request_id e) ("Echo: " ++ p)%string
                        (Z.of_nat (PyStr.count_tokens p))
                        (Z.of_nat (PyStr.count_tokens ("Echo: " ++ p)%string)))
                     (Some (_get_request_id e))).
    assert (Hreply : gateway_reply e (_get_request_id e) reply)
      by (apply reply_json; right; reflexivity).
    destruct (py_add (prompt_tokens_total (metrics st)) _) as [pt|ex] eqn:Hp.
    2:{ raised reply (@nil backend_call). exact Hreply. }
    destruct (py_add (completion_tokens_total (metrics st)) _) as [ct|ex] eqn:Hc.
    2:{ raised reply (@nil backend_call). exact Hreply. }
    replied reply (@nil backend_call). exact Hreply.
Qed.

(** Every run of the handler on [/v1/chat/completions] ends in one of the
    three ways of [chat_outcome]. *)
Lemma chat_outcome_holds {lib : PyLib} e st :
  path e = "/v1/chat/completions" -> chat_outcome e st (do_POST e st).
Proof.
  intros Hpath. rewrite (chat_route e st Hpath).
  unfold _handle_chat_completions, _read_json_body.
  destruct (body e) as [b|] eqn:Hbody.
  2:{ run_monad. rewrite record_metrics_zero, send_json_run.
      apply outcome_rejected with (code := "invalid_json");
        [unfold rejection; now rewrite Hbody | reflexivity | reflexivity | reflexivity]. }
  assert (Hshape : forall ex,
             rejection e = None ->
             chat_outcome e st (Raise ex, st)).
  { intros ex Hrej. raised (@nil wire_event) (@nil backend_call). }
  destruct b as [| | | | | |d];
    try (apply Hshape; unfold rejection; now rewrite Hbody).
  run_monad. cbn.
  assert (Hreject :
            rejection e = Some "invalid_messages" ->
            chat_outcome e st
              ((_record_metrics 400 (latency_ms e) (JInt 0) (JInt 0) ;;
                _send_json 400 (error_body "invalid_messages") None) st)).
  { intros Hrej. unfold bind. rewrite record_metrics_zero, send_json_run.
    apply outcome_rejected with (code := "invalid_messages");
      [assumption | reflexivity | reflexivity | reflexivity]. }
  unfold bind in Hreject.
  destruct (dict_get "messages" d) as [messages|] eqn:Hmsgs.
  2:{ cbn. apply Hreject. unfold rejection. now rewrite Hbody, Hmsgs. }
  destruct messages as [| | | | |msgs|];
    try (cbn; apply Hreject; unfold rejection; now rewrite Hbody, Hmsgs).
  destruct msgs as [|m rest];
    [cbn; apply Hreject; unfold rejection; now rewrite Hbody, Hmsgs|].
  assert (Hrej : rejection e = None)
    by (unfold rejection; now rewrite Hbody, Hmsgs).
  cbn [isinstance_list truthy negb orb items].
  destruct (scan_prompt (rev (m :: rest))) as [prompt|ex]; [|now apply Hshape].
  destruct (configured_backend e) as [base|] eqn:Hbase.
  - apply handle_backend_outcome with (base := base);
      [assumption | now apply configured_backend_url].
  - now apply handle_echo_outcome.
Qed.

(** ** Request ids *)

Lemma request_id_nonempty e : uuid4 e <> "" -> _get_request_id e <> "".
Proof.
  intros Huuid. unfold _get_request_id.
  destruct (headers_get "X-Request-ID" (headers e)) as [[|c r]|]; try discriminate;
    destruct (headers_get "Request-Id" (headers e)) as [[|c' r']|];
    try discriminate; exact Huuid.
Qed.

Lemma headers_until_next_relayed lines tail :
  headers_until_next (relayed_lines lines ++ tail) = headers_until_next tail.
Proof. induction lines as [|l rest IH]; [reflexivity | exact IH]. Qed.

Lemma responses_of_relayed lines tail :
  responses_of (relayed_lines lines ++ tail) = responses_of tail.
Proof. induction lines as [|l rest IH]; [reflexivity | exact IH]. Qed.

(** The responses of a relayed stream: the 200 stream itself, then
    whatever responses [tail] holds. *)
Lemma responses_of_stream rid lines tail :
  responses_of (stream_head_events rid ++ relayed_lines lines ++ tail)
  = {| r_status := 200;
       r_headers := [("Content-Type", "text/event-stream");
                     ("Cache-Control", "no-cache");
                     ("X-Request-ID", rid)] ++ headers_until_next tail;
       r_body := body_until_next (relayed_lines lines ++ tail) |}
    :: responses_of tail.
Proof.
  cbn [stream_head_events app responses_of headers_until_next body_until_next].
  rewrite headers_until_next_relayed, responses_of_relayed. reflexivity.
Qed.

Lemma gateway_reply_stamped {lib : PyLib} e rid evs :
  rid <> "" ->
  gateway_reply e rid evs ->
  Forall (carries_request_id rid) (responses_of evs).
Proof.
  intros Hne Hreply. unfold carries_request_id.
  destruct rid as [|c r]; [contradiction|].
  destruct Hreply as [| status data _ | content | up _ _ | up f _ _].
  - constructor.
  - rewrite responses_of_json_events. repeat constructor.
  - rewrite responses_of_sse_echo. repeat constructor.
  - rewrite responses_of_stream. repeat constructor.
  - rewrite responses_of_stream, responses_of_json_events. repeat constructor.
Qed.

(** What [do_GET] writes: nothing (when [_proxy_models] raises) or one
    JSON response without a request id. *)
Lemma do_GET_reply {lib : PyLib} e st :
  exists evs,
    wire (snd (do_GET e st)) = wire st ++ evs
    /\ (evs = [] \/ exists status data, evs = json_events status data None).
Proof.
  assert (Hsend : forall status data st0,
             exists evs,
               wire (snd (_send_json status data None st0)) = wire st0 ++ evs
               /\ (evs = [] \/ exists status' data', evs = json_events status' data' None)).
  { intros status data st0. rewrite send_json_run. eexists. split; [reflexivity|]. right. do 2 eexists. reflexivity. }
  unfold do_GET.
  destruct (String.eqb (path e) "/healthz"); [apply Hsend|].
  destruct (String.eqb (path e) "/v1/models").
  - destruct (configured_backend e); [|apply Hsend].
    unfold _proxy_models, client_get.
    destruct (backend_url e) as [base|].
    2:{ exists []. rewrite app_nil_r. split; [reflexivity | now left]. }
    run_monad. cbn.
    destruct (on_get e) as [[|]|r]; cbn.
    + rewrite send_json_run. eexists. split; [reflexivity|]. right. do 2 eexists. reflexivity.
    + rewrite send_json_run. eexists. split; [reflexivity|]. right. do 2 eexists. reflexivity.
    + destruct (decoded r) as [data|]; cbn.
      * rewrite send_json_run. eexists. split; [reflexivity|]. right. do 2 eexists. reflexivity.
      * exists []. rewrite app_nil_r. split; [reflexivity | now left].
  - destruct (String.eqb (path e) "/metrics"); [|apply Hsend].
    run_monad. apply Hsend.
Qed.

Lemma no_request_id_in {lib : PyLib} evs :
  evs = [] \/ (exists status data, evs = json_events status data None) ->
  Forall (fun r => header "X-Request-ID" (r_headers r) = None) (responses_of evs).
Proof.
  intros [-> | (status & data & ->)].
  - constructor.
  - rewrite responses_of_json_events. repeat constructor.
Qed.

(** C4, as the code has it.  For a POST to [/v1/chat/completions], the
    resolved request id is the [X-Request-ID] request header when supplied,
    else the [Request-Id] header when supplied, else the generated UUID.
    Every response to a request that passed validation -- an echo reply or
    stream, a relayed backend reply or stream, a 502 or 504 backend error
    -- carries an [X-Request-ID] header equal to the resolved id, and a
    JSON body that has an [id] field has the resolved id there
    ([gateway_reply]).  The responses of the GET routes, and the 404 of an
    unknown POST route, carry no [X-Request-ID] header. *)
Theorem validated_chat_replies_carry_request_id {lib : PyLib} :
  (forall e,
      let rid := _get_request_id e in
      (forall v, headers_get "X-Request-ID" (headers e) = Some v -> v <> "" -> rid = v)
      /\ (forall v, supplied "X-Request-ID" e = false ->
                    headers_get "Request-Id" (headers e) = Some v -> v <> "" -> rid = v)
      /\ (supplied "X-Request-ID" e = false -> supplied "Request-Id" e = false ->
          rid = uuid4 e))
  /\ (forall e st,
      path e = "/v1/chat/completions" ->
      rejection e = None ->
      uuid4 e <> "" ->
      exists evs,
        wire (snd (do_POST e st)) = wire st ++ evs
        /\ gateway_reply e (_get_request_id e) evs
        /\ Forall (carries_request_id (_get_request_id e)) (responses_of evs))
  /\ (forall e st,
      exists evs,
        wire (snd (do_GET e st)) = wire st ++ evs
        /\ Forall (fun r => header "X-Request-ID" (r_headers r) = None) (responses_of evs))
  /\ (forall e st,
      path e <> "/v1/chat/completions" ->
      exists evs,
        wire (snd (do_POST e st)) = wire st ++ evs
        /\ Forall (fun r => header "X-Request-ID" (r_headers r) = None) (responses_of evs)).
Proof.
  split; [|split; [|split]].
  - intros e. cbn zeta. unfold supplied, _get_request_id.
    split; [|split].
    + intros v Hv Hne. rewrite Hv. destruct v; [contradiction | reflexivity].
    + intros v Hx Hv Hne.
      destruct (headers_get "X-Request-ID" (headers e)) as [[|c r]|];
        try discriminate; rewrite Hv; (destruct v; [contradiction | reflexivity]).
    + intros Hx Hr.
      destruct (headers_get "X-Request-ID" (headers e)) as [[|c r]|];
        try discriminate;
        destruct (headers_get "Request-Id" (headers e)) as [[|c' r']|];
        try discriminate; reflexivity.
  - intros e st Hpath Hrej Huuid.
    pose proof (chat_outcome_holds e st Hpath) as Hrun.
    destruct (do_POST e st) as [res st'].
    inversion Hrun as [code st1 Hcode _ _ _ | status p c evs cs st1 _ Hreply _ _ Hwire _ _
                      | ex evs cs st1 _ Hreply _ _ Hwire _ _]; subst.
    + rewrite Hrej in Hcode. discriminate.
    + exists evs. split; [exact Hwire|]. split; [exact Hreply|].
      apply gateway_reply_stamped with (e := e);
        [now apply request_id_nonempty | exact Hreply].
    + exists evs. split; [exact Hwire|]. split; [exact Hreply|].
      apply gateway_reply_stamped with (e := e);
        [now apply request_id_nonempty | exact Hreply].
  - intros e st. destruct (do_GET_reply e st) as (evs & Hwire & Hshape).
    exists evs. split; [exact Hwire | now apply no_request_id_in].
  - intros e st Hpath. unfold do_POST.
    destruct (String.eqb_spec (path e) "/v1/chat/completions"); [contradiction|].
    rewrite send_json_run. eexists. split; [reflexivity|].
    apply no_request_id_in. right. do 2 eexists. reflexivity.
Qed.

(** The tests' request with [X-Request-ID: my-request-123]: its response
    carries the same header. *)
Lemma validated_chat_replies_carry_request_id_witness :
  Forall (carries_request_id "my-request-123")
    (responses_of
       (wire (snd (do_POST (lib := plain_lib) hello_with_request_id initial_state)))).
Proof.
  destruct (validated_chat_replies_carry_request_id (lib := plain_lib))
    as (_ & Hchat & _).
  destruct (Hchat hello_with_request_id initial_state eq_refl eq_refl)
    as (evs & Hwire & _ & Hall).
  - discriminate.
  - cbn [wire initial_state app] in Hwire. rewrite Hwire. exact Hall.
Defined.

(** C4 as stated fails: the response to [GET /healthz] carries no
    [X-Request-ID] header, even when the request supplied one.  [do_GET]
    never resolves a request id. *)
Lemma healthz_response_has_no_request_id :
  map (fun r => header "X-Request-ID" (r_headers r))
    (responses_of
       (wire (snd (do_GET (lib := plain_lib)
                     (with_path "/healthz"
                        (with_headers [("X-Request-ID", "my-request-123")] blank_env))
                     initial_state))))
  = [None].
Proof. reflexivity. Qed.

(** Nor do the 400 responses of the chat route, although the id is
    resolved by then and the 502 and 504 responses carry it. *)
Example rejected_request_response_has_no_request_id :
  map (fun r => (r_status r, header "X-Request-ID" (r_headers r)))
    (responses_of
       (wire (snd (do_POST (lib := plain_lib)
                     (with_path "/v1/chat/completions"
                        (with_headers [("X-Request-ID", "my-request-123")] blank_env))
                     initial_state))))
  = [(400, None)].
Proof. reflexivity. Qed.

(** ** Metrics *)









(** ** What holds of the buffered proxy, of validation and of the models
    route *)

(** On a buffered proxied request: upstream 5xx is answered 502
    [backend_error]; an undecodable body 502 [backend_invalid_response];
    a decoded object, whose [usage] is absent or an object and whose token
    counts can be added to the totals, is relayed with the upstream status
    and with its [id] overwritten by the request id, the token counts
    defaulting to 0. *)
Theorem buffered_backend_reply_is_relayed {lib : PyLib} (e : env) (st : state)
    (d : list (string * json)) (msgs : list json) (base : string) (r : upstream) :
  path e = "/v1/chat/completions" ->
  body e = Some (JDict d) ->
  dict_get "messages" d = Some (JList msgs) ->
  truthy (JList msgs) = true ->
  forallb is_object msgs = true ->
  configured_backend e = Some base ->
  truthy (stream_flag d) = false ->
  on_post e = CallReturns r ->
  let rid := _get_request_id e in
  let called := add_call (ClientPost (chat_url base) (JDict d) 60%float) st in
  let failed := set_metrics (recorded_zero 502 (latency_ms e) (metrics st)) called in
  ((500 <=? status_code r) = true ->
   do_POST e st
   = (Ok tt, add_events (json_events 502 (error_body "backend_error") (Some rid)) failed))
  /\ ((500 <=? status_code r) = false ->
      decoded r = None ->
      do_POST e st
      = (Ok tt,
         add_events (json_events 502 (error_body "backend_invalid_response") (Some rid))
           failed))
  /\ (forall data usage p c,
      (500 <=? status_code r) = false ->
      decoded r = Some (JDict data) ->
      usage_of data = JDict usage ->
      py_add (prompt_tokens_total (metrics st)) (token_count "prompt_tokens" usage) = Ok p ->
      py_add (completion_tokens_total (metrics st)) (token_count "completion_tokens" usage)
      = Ok c ->
      do_POST e st
      = (Ok tt,
         add_events
           (json_events (status_code r) (JDict (dict_set "id" (JStr rid) data)) (Some rid))
           (set_metrics (recorded (status_code r) (latency_ms e) p c (metrics st)) called))
      /\ dict_get "id" (dict_set "id" (JStr rid) data) = Some (JStr rid)).
Proof.
  intros Hpath Hbody Hmsgs Hne Hobj Hbase Hstream Hpost. cbn zeta.
  pose proof (configured_backend_url e base Hbase) as Hurl.
  rewrite (backend_request_run e st d msgs base) by assumption.
  split; [|split].
  - intros H5. now apply backend_post_5xx with (r := r).
  - intros H5 Hdec. now apply backend_post_undecodable with (r := r).
  - intros data usage p c H5 Hdec Husage Hp Hc. split.
    + now apply backend_post_relays with (usage := usage).
    + apply dict_get_set_same.
Qed.

(** The tests' mocked success: status 200 relayed, the backend's id
    replaced, five and three tokens counted. *)
Lemma buffered_backend_reply_is_relayed_witness :
  wire (snd (do_POST (lib := plain_lib)
               (with_post (returns 200 (Some (JDict mocked_completion)))
                  (backend_env hello_payload))
               initial_state))
  = json_events (lib := plain_lib) 200
      (JDict (dict_set "id" (JStr (uuid4 blank_env)) mocked_completion))
      (Some (uuid4 blank_env)).
Proof.
  destruct (buffered_backend_reply_is_relayed (lib := plain_lib)
              (with_post (returns 200 (Some (JDict mocked_completion)))
                 (backend_env hello_payload))
              initial_state
              [("model", JStr "test"); ("messages", hello_messages)]
              [JDict [("role", JStr "user"); ("content", JStr "hello")]]
              "http://test-backend"
              {| status_code := 200; decoded := Some (JDict mocked_completion) |}
              eq_refl eq_refl eq_refl eq_refl eq_refl eq_refl eq_refl eq_refl)
    as (_ & _ & Hrelay).
  destruct (Hrelay mocked_completion
              [("prompt_tokens", JInt 5); ("completion_tokens", JInt 3);
               ("total_tokens", JInt 8)]
              (PInt 5) (PInt 3) eq_refl eq_refl eq_refl eq_refl eq_refl) as [Hrun _].
  rewrite Hrun. reflexivity.
Defined.

(** A POST to the chat route whose body does not parse is answered 400
    [invalid_json]; one whose body is an object without a non-empty list
    as [messages] is answered 400 [invalid_messages].  Either way the
    request is counted once, as an error, and nothing else happens: no
    backend call, no other write. *)
Theorem invalid_requests_are_rejected {lib : PyLib} (e : env) (st : state) (code : string) :
  path e = "/v1/chat/completions" ->
  rejection e = Some code ->
  do_POST e st
  = (Ok tt,
     add_events (json_events 400 (error_body code) None)
       (set_metrics (recorded_zero 400 (latency_ms e) (metrics st)) st))
  /\ (body e = None -> code = "invalid_json")
  /\ (forall b, body e = Some b -> code = "invalid_messages").
Proof.
  intros Hpath Hrej. split.
  - pose proof (chat_outcome_holds e st Hpath) as Hrun.
    destruct (do_POST e st) as [res st'].
    inversion Hrun as [code' st1 Hcode Hm Hwire Hcalls | status p c evs cs st1 Hnone
                      | ex evs cs st1 Hnone]; subst;
      try (rewrite Hrej in Hnone; discriminate).
    rewrite Hrej in Hcode. inversion Hcode; subst code'.
    destruct st' as [m w cs]. cbn in Hm, Hwire, Hcalls. subst. reflexivity.
  - unfold rejection in Hrej. split.
    + intros Hbody. rewrite Hbody in Hrej. now inversion Hrej.
    + intros b Hbody. rewrite Hbody in Hrej.
      destruct b as [| | | | | |d]; try discriminate.
      destruct (dict_get "messages" d) as [[| | | | |[|m rest]|]|];
        try discriminate; now inversion Hrej.
Qed.

(** The tests' [{}] body. *)
Lemma invalid_requests_are_rejected_witness :
  map r_status
    (responses_of
       (wire (snd (do_POST (lib := plain_lib) (chat_env (JDict [])) initial_state))))
  = [400]
  /\ calls (snd (do_POST (lib := plain_lib) (chat_env (JDict [])) initial_state)) = [].
Proof.
  destruct (invalid_requests_are_rejected (lib := plain_lib)
              (chat_env (JDict [])) initial_state "invalid_messages" eq_refl eq_refl)
    as [Hrun _].
  rewrite Hrun. split; reflexivity.
Defined.

(** [GET /v1/models]: without a backend the static echo listing is
    answered 200; with one, a single [GET] goes to the backend's
    [/v1/models] with timeout 10, a timeout is answered 504
    [gateway_timeout], another connection failure 502
    [backend_unavailable], and a decodable reply is relayed with the
    upstream status. *)
Theorem models_listing_is_static_or_proxied {lib : PyLib} (e : env) (st : state) :
  path e = "/v1/models" ->
  (configured_backend e = None ->
   do_GET e st = (Ok tt, add_events (json_events 200 echo_models None) st))
  /\ (forall base f,
      configured_backend e = Some base ->
      on_get e = CallFails f ->
      do_GET e st
      = (Ok tt,
         add_events (json_events (failure_status f) (error_body (failure_code f)) None)
           (add_call (ClientGet (models_url base) 10%float) st)))
  /\ (forall base r data,
      configured_backend e = Some base ->
      on_get e = CallReturns r ->
      decoded r = Some data ->
      do_GET e st
      = (Ok tt,
         add_events (json_events (status_code r) data None)
           (add_call (ClientGet (models_url base) 10%float) st))).
Proof.
  intros Hpath. unfold do_GET. rewrite Hpath. cbn [String.eqb Ascii.eqb Bool.eqb].
  split; [|split].
  - intros Hecho. rewrite Hecho. apply send_json_run.
  - intros base f Hbase Hget. rewrite Hbase.
    unfold _proxy_models, client_get.
    rewrite (configured_backend_url e base Hbase), Hget. run_monad. cbn.
    destruct f; cbn; rewrite send_json_run; reflexivity.
  - intros base r data Hbase Hget Hdec. rewrite Hbase.
    unfold _proxy_models, client_get.
    rewrite (configured_backend_url e base Hbase), Hget. run_monad. cbn.
    rewrite Hdec. cbn. rewrite send_json_run. reflexivity.
Qed.

(** The tests' [test_models_list]: one 200 response, no backend call. *)
Lemma models_listing_is_static_or_proxied_witness :
  do_GET (lib := plain_lib) (with_path "/v1/models" blank_env) initial_state
  = (Ok tt, add_events (json_events (lib := plain_lib) 200 echo_models None) initial_state).
Proof.
  destruct (models_listing_is_static_or_proxied (lib := plain_lib)
              (with_path "/v1/models" blank_env) initial_state eq_refl) as [Hstatic _].
  exact (Hstatic eq_refl).
Defined.

(** ** The remaining routes *)

(** [GET /healthz] answers 200 [{"status": "ok"}]; a GET to a path that is
    none of the three routes, and a POST to a path other than
    [/v1/chat/completions], answer 404 [{"error": "not_found"}]. *)
Theorem health_and_unknown_routes {lib : PyLib} (e : env) (st : state) :
  (path e = "/healthz" ->
   do_GET e st
   = (Ok tt, add_events (json_events 200 (JDict [("status", JStr "ok")]) None) st))
  /\ (path e <> "/healthz" -> path e <> "/v1/models" -> path e <> "/metrics" ->
      do_GET e st = (Ok tt, add_events (json_events 404 (error_body "not_found") None) st))
  /\ (path e <> "/v1/chat/completions" ->
      do_POST e st = (Ok tt, add_events (json_events 404 (error_body "not_found") None) st)).
Proof.
  split; [|split].
  - intros Hpath. unfold do_GET. rewrite Hpath. apply send_json_run.
  - intros H1 H2 H3. unfold do_GET.
    destruct (String.eqb_spec (path e) "/healthz"); [contradiction|].
    destruct (String.eqb_spec (path e) "/v1/models"); [contradiction|].
    destruct (String.eqb_spec (path e) "/metrics"); [contradiction|].
    apply send_json_run.
  - intros Hpath. unfold do_POST.
    destruct (String.eqb_spec (path e) "/v1/chat/completions"); [contradiction|].
    apply send_json_run.
Qed.

(** The tests' [/unknown]: 404 for GET and for POST. *)
Lemma health_and_unknown_routes_witness :
  statuses (wire (snd (do_GET (lib := plain_lib) (with_path "/unknown" blank_env)
                         initial_state))) = [404]
  /\ statuses (wire (snd (do_POST (lib := plain_lib) (with_path "/unknown" blank_env)
                            initial_state))) = [404].
Proof.
  destruct (health_and_unknown_routes (lib := plain_lib)
              (with_path "/unknown" blank_env) initial_state) as (_ & Hget & Hpost).
  rewrite Hget, Hpost by discriminate. split; reflexivity.
Defined.



(** In echo mode the reply always has one token more than the prompt:
    [len(("Echo: " + p).split()) = len(p.split()) + 1]. *)
Theorem echo_reply_is_one_token_longer (p : string) :
  List.length (PyStr.split ("Echo: " ++ p)) = S (List.length (PyStr.split p)).
Proof. rewrite !split_length. reflexivity. Qed.

(** ** Exceptions that leave the handler *)

(** C1 fails on the code.  The backend answers 200 with
    [{"id": "cmpl-1", "usage": null}]: [usage.get] raises
    [AttributeError], nothing catches it, no response is written and the
    request is not counted. *)
Lemma null_usage_reply_is_not_relayed :
  do_POST (lib := plain_lib) null_usage_env initial_state
  = (Raise AttributeError,
     add_call (ClientPost "http://test-backend/v1/chat/completions" hello_payload 60%float)
       initial_state).
Proof. reflexivity. Qed.

(** C5 fails on the code.  The body [[]] is valid JSON with no
    [messages] field, yet [body.get] raises [AttributeError]: no 400 is
    written and the request is not counted. *)
Lemma array_body_is_not_rejected :
  do_POST (lib := plain_lib) array_body_env initial_state
  = (Raise AttributeError, initial_state).
Proof. reflexivity. Qed.

(** C7 fails on the code.  In echo mode [{"messages": ["hi"]}] makes
    [msg.get] raise [AttributeError]; with a backend, a decoded reply
    [[1, 2]] makes [data["id"] = ...] raise [TypeError].  Both leave the
    handler, and no error body is written. *)
Lemma ill_shaped_json_escapes_the_handler :
  do_POST (lib := plain_lib) string_message_env initial_state
  = (Raise AttributeError, initial_state)
  /\ do_POST (lib := plain_lib) array_reply_env initial_state
     = (Raise TypeError,
        add_call
          (ClientPost "http://test-backend/v1/chat/completions" hello_payload 60%float)
          initial_state).
Proof. split; reflexivity. Qed.

(** C9 fails on the code.  With a backend whose [/v1/models] answer is
    200 but not JSON, [resp.json()] raises [ValueError] inside the [try]
    whose clauses catch httpx errors only: nothing is relayed. *)
Lemma undecodable_models_reply_is_not_relayed :
  do_GET (lib := plain_lib) models_not_json_env initial_state
  = (Raise ValueError,
     add_call (ClientGet "http://test-backend/v1/models" 10%float) initial_state).
Proof. reflexivity. Qed.

(** * Further properties *)

Import Runs Sessions Inputs.

(** ** Every run of the chat handler, with its final state *)

(** [_record_metrics] in one step. *)
Lemma record_metrics_record status latency x y st :
  _record_metrics status latency x y st
  = (fst (record_outcome status latency x y (metrics st)),
     set_metrics (snd (record_outcome status latency x y (metrics st))) st).
Proof.
  rewrite record_metrics_result. unfold record_outcome.
  destruct (py_add (prompt_tokens_total (metrics st)) x) as [p|ex]; [|reflexivity].
  destruct (py_add (completion_tokens_total (metrics st)) y) as [c|ex]; reflexivity.
Qed.

Lemma record_raises status latency x y m ex :
  fst (record_outcome status latency x y m) = Raise ex -> ex = TypeError \/ ex = OverflowError.
Proof.
  unfold record_outcome.
  destruct (py_add (prompt_tokens_total m) x) as [p|ex1] eqn:Hp.
  - destruct (py_add (completion_tokens_total m) y) as [c|ex2] eqn:Hc; cbn.
    + discriminate.
    + intros H. inversion H; subst. eapply py_add_raises; eauto.
  - cbn. intros H. inversion H; subst. eapply py_add_raises; eauto.
Qed.

Lemma add_events_nil st : add_events [] st = st.
Proof. destruct st. unfold add_events. cbn. now rewrite app_nil_r. Qed.

Lemma scan_prompt_raises msgs ex : scan_prompt msgs = Raise ex -> ex = AttributeError.
Proof.
  induction msgs as [|m rest IH]; cbn; [discriminate|].
  destruct m as [| | | | | |d]; cbn; try (intros H; now inversion H).
  destruct (eq_str _ "user"); [discriminate | exact IH].
Qed.

(** The runs of [_handle_backend]. *)
Lemma handle_backend_run {lib : PyLib} e d st base :
  rejection e = None ->
  body e = Some (JDict d) ->
  configured_backend e = Some base ->
  chat_run e st (_handle_backend e (_get_request_id e) (JDict d) (stream_flag d) st).
Proof.
  intros Hrej Hbody Hbase.
  pose proof (configured_backend_url e base Hbase) as Hurl.
  assert (Hreq : forall b, truthy (stream_flag d) = b ->
             backend_request base d
             = if b then ClientStream (chat_url base) (JDict d) 60%float
               else ClientPost (chat_url base) (JDict d) 60%float).
  { intros b Hb. unfold backend_request. now rewrite Hb. }
  destruct (truthy (stream_flag d)) eqn:Hstream.
  - specialize (Hreq true eq_refl). cbn in Hreq.
    destruct (on_stream e) as [f|r] eqn:Hopen.
    + rewrite (backend_stream_fails_to_open e _ (JDict d) (stream_flag d) st base f)
        by assumption.
      rewrite <- Hreq.
      apply run_backend_error with (base := base) (d := d); try assumption.
      destruct f; cbn; auto.
    + destruct (500 <=? stream_status_code r) eqn:H5.
      * rewrite (backend_stream_5xx e _ (JDict d) (stream_flag d) st base r) by assumption.
        rewrite <- Hreq.
        apply run_backend_error with (base := base) (d := d); try assumption.
        cbn; auto.
      * apply Z.leb_gt in H5 as H5'.
        destruct (stream_failure r) as [f|] eqn:Hend.
        -- rewrite (backend_stream_breaks e _ (JDict d) (stream_flag d) st base r f)
             by assumption.
           rewrite <- Hreq. now apply run_broken_stream.
        -- rewrite (backend_stream_relays e _ (JDict d) (stream_flag d) st base r)
             by assumption.
           rewrite <- Hreq. now apply run_stream.
  - specialize (Hreq false eq_refl). cbn in Hreq.
    destruct (on_post e) as [f|r] eqn:Hpost.
    + rewrite (backend_post_fails e _ (JDict d) (stream_flag d) st base f) by assumption.
      rewrite <- Hreq.
      apply run_backend_error with (base := base) (d := d); try assumption.
      destruct f; cbn; auto.
    + destruct (500 <=? status_code r) eqn:H5.
      * rewrite (backend_post_5xx e _ (JDict d) (stream_flag d) st base r) by assumption.
        rewrite <- Hreq.
        apply run_backend_error with (base := base) (d := d); try assumption.
        cbn; auto.
      * apply Z.leb_gt in H5 as H5'.
        destruct (decoded r) as [data|] eqn:Hdec.
        2:{ rewrite (backend_post_undecodable e _ (JDict d) (stream_flag d) st base r)
              by assumption.
            rewrite <- Hreq.
            apply run_backend_error with (base := base) (d := d); try assumption.
            cbn; auto. }
        unfold _handle_backend, _proxy_non_stream, client_post.
        rewrite Hurl, Hstream, Hpost. run_monad. cbn. rewrite H5, Hdec. cbn.
        fold (chat_url base).
        change {| metrics := metrics st; wire := wire st;
                  calls := calls st ++ [ClientPost (chat_url base) (JDict d) 60%float] |}
          with (add_call (ClientPost (chat_url base) (JDict d) 60%float) st).
        rewrite <- Hreq.
        destruct data as [| | | | | |dd]; cbn;
          try (apply run_reply_ill_shaped; auto).
        rewrite dict_get_set_other by reflexivity.
        destruct (match dict_get "usage" dd with Some v => v | None => JDict [] end)
          as [| | | | | |usage] eqn:Husage; cbn;
          try (apply run_reply_ill_shaped; auto).
        rewrite record_metrics_record.
        pose proof (run_relay e st base d r dd usage Hrej Hbase Hbody Hstream Hpost H5' Hdec Husage)
          as Hrun.
        cbn zeta in Hrun. unfold token_count, latency_ms in Hrun.
        change (metrics (add_call (backend_request base d) st)) with (metrics st).
        unfold bind.
        destruct (record_outcome _ _ _ _ _) as [[[]|ex] m] eqn:Hrec; cbn [fst snd] in *.
        -- rewrite send_json_run. exact Hrun.
        -- rewrite add_events_nil in Hrun.
           apply (f_equal fst) in Hrec. cbn [fst] in Hrec.
           apply record_raises in Hrec as [-> | ->]; exact Hrun.
Qed.

(** The runs of [_handle_echo]. *)
Lemma handle_echo_chat_run {lib : PyLib} e d prompt st :
  rejection e = None ->
  body e = Some (JDict d) ->
  configured_backend e = None ->
  chat_run e st (_handle_echo e (_get_request_id e) prompt (stream_flag d) st).
Proof.
  intros Hrej Hbody Hecho.
  destruct prompt as [| | | |p| |];
    try (cbn; unfold raise; now apply run_ill_shaped).
  pose proof (run_echo e st d p Hrej Hecho Hbody) as Hrun. cbn zeta in Hrun.
  unfold echo_events in Hrun.
  unfold _handle_echo. rewrite !split_length. unfold bind at 1.
  destruct (truthy (stream_flag d)).
  - rewrite send_sse_echo_run, record_metrics_record. exact Hrun.
  - rewrite send_json_run, record_metrics_record. exact Hrun.
Qed.

(** Every run of the handler on [/v1/chat/completions] is one of the runs
    of [chat_run]. *)
Lemma chat_run_holds {lib : PyLib} e st :
  path e = "/v1/chat/completions" -> chat_run e st (do_POST e st).
Proof.
  intros Hpath. rewrite (chat_route e st Hpath).
  destruct (rejection e) as [code|] eqn:Hrej.
  - pose proof (chat_outcome_holds e st Hpath) as Hrun.
    rewrite (chat_route e st Hpath) in Hrun.
    destruct (_handle_chat_completions e st) as [res st'].
    inversion Hrun as [code' st1 Hcode Hm Hwire Hcalls | status p c evs cs st1 Hnone
                      | ex evs cs st1 Hnone]; subst;
      try (rewrite Hrej in Hnone; discriminate).
    rewrite Hrej in Hcode. inversion Hcode; subst code'.
    destruct st' as [m w cs]. cbn in Hm, Hwire, Hcalls. subst.
    now apply run_rejected.
  - unfold rejection in Hrej.
    destruct (body e) as [b|] eqn:Hbody; [|discriminate].
    assert (Hrej' : rejection e = None) by (unfold rejection; now rewrite Hbody).
    destruct b as [| | | | | |d];
      try (unfold _handle_chat_completions, _read_json_body; rewrite Hbody;
           now apply run_ill_shaped).
    destruct (dict_get "messages" d) as [[| | | | |[|m rest]|]|] eqn:Hmsgs;
      try discriminate.
    rewrite (chat_completions_dispatch e st d (m :: rest) Hbody Hmsgs) by discriminate.
    destruct (scan_prompt (rev (m :: rest))) as [prompt|ex] eqn:Hscan.
    + destruct (configured_backend e) as [base|] eqn:Hbase.
      * now apply handle_backend_run with (base := base).
      * now apply handle_echo_chat_run.
    + apply scan_prompt_raises in Hscan. subst ex. now apply run_ill_shaped.
Qed.

(** ** The streaming proxy *)

Lemma body_of_relayed_stream lines :
  body_until_next (relayed_lines lines ++ [WfileWrite PyStr.LF; WfileFlush])
  = stream_body lines.
Proof.
  induction lines as [|l rest IH]; [reflexivity|].
  cbn [relayed_lines map app body_until_next stream_body fold_right].
  unfold relayed_lines in IH. rewrite IH, encode_app, append_assoc. reflexivity.
Qed.

(** A streaming proxied request whose [messages] is a non-empty list of
    objects always returns: whether the call fails, the backend answers
    any status, or the stream breaks.  An upstream status of 500 or more
    is answered with the buffered 502
    [backend_error].  Any other upstream status, a 404 as much as a 200,
    is answered 200 [text/event-stream] with the request id: every
    upstream line is relayed in order, followed by a line feed, one more
    line feed ends the body, and the request is recorded with status 200
    and no tokens. *)
Theorem streamed_backend_reply_is_relayed {lib : PyLib} (e : env) (st : state)
    (d : list (string * json)) (msgs : list json) (base : string) :
  path e = "/v1/chat/completions" ->
  body e = Some (JDict d) ->
  dict_get "messages" d = Some (JList msgs) ->
  truthy (JList msgs) = true ->
  forallb is_object msgs = true ->
  configured_backend e = Some base ->
  truthy (stream_flag d) = true ->
  let rid := _get_request_id e in
  let called := add_call (ClientStream (chat_url base) (JDict d) 60%float) st in
  fst (do_POST e st) = Ok tt
  /\ (forall up,
      on_stream e = StreamOpens up ->
      (500 <=? stream_status_code up) = true ->
      do_POST e st
      = (Ok tt,
         add_events (json_events 502 (error_body "backend_error") (Some rid))
           (set_metrics (recorded_zero 502 (latency_ms e) (metrics st)) called)))
  /\ (forall up,
      on_stream e = StreamOpens up ->
      (500 <=? stream_status_code up) = false ->
      stream_failure up = None ->
      let evs := stream_head_events rid ++ relayed_lines (stream_lines up)
                 ++ [WfileWrite PyStr.LF; WfileFlush] in
      do_POST e st
      = (Ok tt,
         set_metrics (recorded_zero 200 (latency_ms e) (metrics st)) (add_events evs called))
      /\ responses_of evs
         = [{| r_status := 200;
               r_headers := [("Content-Type", "text/event-stream");
                             ("Cache-Control", "no-cache");
                             ("X-Request-ID", rid)];
               r_body := stream_body (stream_lines up) |}]).
Proof.
  intros Hpath Hbody Hmsgs Hne Hobj Hbase Hstream. cbn zeta.
  pose proof (configured_backend_url e base Hbase) as Hurl.
  rewrite (backend_request_run e st d msgs base) by assumption.
  split; [|split].
  - destruct (on_stream e) as [f|up] eqn:Hopen.
    + now rewrite (backend_stream_fails_to_open e _ _ _ st base f) by assumption.
    + destruct (500 <=? stream_status_code up) eqn:H5.
      * now rewrite (backend_stream_5xx e _ _ _ st base up) by assumption.
      * destruct (stream_failure up) as [f|] eqn:Hend.
        -- now rewrite (backend_stream_breaks e _ _ _ st base up f) by assumption.
        -- now rewrite (backend_stream_relays e _ _ _ st base up) by assumption.
  - intros up Hopen H5. now apply backend_stream_5xx with (r := up).
  - intros up Hopen H5 Hend. split.
    + now apply backend_stream_relays.
    + rewrite responses_of_stream. cbn [responses_of headers_until_next app].
      now rewrite body_of_relayed_stream.
Qed.

(** An upstream stream answered 404: the client reads a 200, and no
    error is counted. *)
Lemma streamed_backend_reply_is_relayed_witness :
  map r_status
    (responses_of
       (wire (snd (do_POST (lib := plain_lib)
                     (with_stream not_found_stream (backend_env hello_stream_payload))
                     initial_state))))
  = [200]
  /\ error_count
       (metrics (snd (do_POST (lib := plain_lib)
                        (with_stream not_found_stream (backend_env hello_stream_payload))
                        initial_state))) = 0.
Proof.
  destruct (streamed_backend_reply_is_relayed (lib := plain_lib)
              (with_stream not_found_stream (backend_env hello_stream_payload))
              initial_state
              [("model", JStr "test"); ("messages", hello_messages); ("stream", JBool true)]
              [JDict [("role", JStr "user"); ("content", JStr "hello")]]
              "http://test-backend"
              eq_refl eq_refl eq_refl eq_refl eq_refl eq_refl eq_refl) as (_ & _ & Hrelay).
  destruct (Hrelay {| stream_status_code := 404;
                      stream_lines := ["data: {}"; ""; "data: [DONE]"];
                      stream_failure := None |} eq_refl eq_refl eq_refl) as [Hrun _].
  rewrite Hrun. split; reflexivity.
Defined.

(** ** Every run of a GET *)

Lemma do_GET_run {lib : PyLib} e st : get_run e st (do_GET e st).
Proof.
  unfold do_GET.
  destruct (String.eqb (path e) "/healthz");
    [rewrite send_json_run; apply get_local|].
  destruct (String.eqb_spec (path e) "/v1/models") as [Hpath|_].
  - destruct (configured_backend e) as [base|] eqn:Hbase;
      [|rewrite send_json_run; apply get_local].
    unfold _proxy_models, client_get.
    rewrite (configured_backend_url e base Hbase). run_monad. cbn.
    fold (models_url base).
    change {| metrics := metrics st; wire := wire st;
              calls := calls st ++ [ClientGet (models_url base) 10%float] |}
      with (add_call (ClientGet (models_url base) 10%float) st).
    destruct (on_get e) as [[|]|up] eqn:Hget; cbn.
    + rewrite send_json_run. now apply get_proxied.
    + rewrite send_json_run. now apply get_proxied.
    + destruct (decoded up) as [data|] eqn:Hdec; cbn.
      * rewrite send_json_run. now apply get_proxied.
      * now apply get_undecodable with (up := up).
  - destruct (String.eqb (path e) "/metrics").
    + run_monad. rewrite send_json_run. apply get_local.
    + rewrite send_json_run. apply get_local.
Qed.

Lemma unknown_post_run {lib : PyLib} e st :
  path e <> "/v1/chat/completions" ->
  do_POST e st = (Ok tt, add_events (json_events 404 (error_body "not_found") None) st).
Proof.
  intros Hpath. unfold do_POST.
  destruct (String.eqb_spec (path e) "/v1/chat/completions"); [contradiction|].
  apply send_json_run.
Qed.

(** ** A decoded backend reply *)

Lemma py_add_non_number a x : is_number x = false -> py_add a x = Raise TypeError.
Proof. destruct a, x; cbn; try discriminate; reflexivity. Qed.

(** What a buffered proxy call does with a decoded object whose [usage]
    is absent or an object. *)
Lemma backend_post_decoded {lib : PyLib} e rid payload stream st base up data usage :
  backend_url e = Some base ->
  truthy stream = false ->
  on_post e = CallReturns up ->
  (500 <=? status_code up) = false ->
  decoded up = Some (JDict data) ->
  usage_of data = JDict usage ->
  let r := record_outcome (status_code up) (latency_ms e)
             (token_count "prompt_tokens" usage)
             (token_count "completion_tokens" usage) (metrics st) in
  _handle_backend e rid payload stream st
  = (fst r,
     add_events
       (match fst r with
        | Ok _ => json_events (status_code up) (JDict (dict_set "id" (JStr rid) data))
                    (Some rid)
        | Raise _ => []
        end)
       (set_metrics (snd r) (add_call (ClientPost (chat_url base) payload 60%float) st))).
Proof.
  intros Hurl Hstream Hpost H5 Hdec Husage. cbn zeta.
  unfold _handle_backend, _proxy_non_stream, client_post. rewrite Hurl, Hstream, Hpost.
  run_monad. cbn. rewrite H5, Hdec. cbn.
  rewrite dict_get_set_other by reflexivity.
  unfold usage_of in Husage. rewrite Husage. cbn.
  fold (chat_url base).
  change {| metrics := metrics st; wire := wire st;
            calls := calls st ++ [ClientPost (chat_url base) payload 60%float] |}
    with (add_call (ClientPost (chat_url base) payload 60%float) st).
  rewrite record_metrics_record.
  change (metrics (add_call (ClientPost (chat_url base) payload 60%float) st))
    with (metrics st).
  unfold token_count, latency_ms.
  destruct (record_outcome _ _ _ _ _) as [[[]|ex] m] eqn:Hrec; cbn [fst snd].
  - now rewrite send_json_run.
  - rewrite add_events_nil.
    apply (f_equal fst) in Hrec. cbn [fst] in Hrec.
    apply record_raises in Hrec as [-> | ->]; reflexivity.
Qed.

(** ** Calls to the backend *)

(** Whatever the backend answers, [_handle_backend] calls it once. *)
Lemma handle_backend_calls {lib : PyLib} e rid payload stream st base :
  backend_url e = Some base ->
  calls (snd (_handle_backend e rid payload stream st))
  = calls st
    ++ [if truthy stream then ClientStream (chat_url base) payload 60%float
        else ClientPost (chat_url base) payload 60%float].
Proof.
  intros Hurl.
  destruct (truthy stream) eqn:Hstream.
  - destruct (on_stream e) as [f|up] eqn:Hopen.
    + now rewrite (backend_stream_fails_to_open e rid payload stream st base f).
    + destruct (500 <=? stream_status_code up) eqn:H5.
      * now rewrite (backend_stream_5xx e rid payload stream st base up).
      * destruct (stream_failure up) as [f|] eqn:Hend.
        -- now rewrite (backend_stream_breaks e rid payload stream st base up f).
        -- now rewrite (backend_stream_relays e rid payload stream st base up).
  - destruct (on_post e) as [f|up] eqn:Hpost.
    + now rewrite (backend_post_fails e rid payload stream st base f).
    + destruct (500 <=? status_code up) eqn:H5.
      * now rewrite (backend_post_5xx e rid payload stream st base up).
      * destruct (decoded up) as [data|] eqn:Hdec.
        2:{ now rewrite (backend_post_undecodable e rid payload stream st base up). }
        destruct data as [| | | | | |dd];
          try (unfold _handle_backend, _proxy_non_stream, client_post;
               rewrite Hurl, Hstream, Hpost; run_monad; cbn; rewrite H5, Hdec;
               reflexivity).
        destruct (usage_of dd) as [| | | | | |usage] eqn:Husage;
          try (unfold _handle_backend, _proxy_non_stream, client_post;
               rewrite Hurl, Hstream, Hpost; run_monad; cbn; rewrite H5, Hdec; cbn;
               rewrite dict_get_set_other by reflexivity;
               unfold usage_of in Husage; rewrite Husage; reflexivity).
        now rewrite (backend_post_decoded e rid payload stream st base up dd usage).
Qed.

(** A request makes at most one backend call.  A POST makes one only on
    the chat route with a backend configured: [client.post], or
    [client.stream] when the [stream] flag is truthy, to
    [<backend>/v1/chat/completions] with the parsed request body and
    timeout 60.  A GET makes one only on [/v1/models] with a backend
    configured: [client.get] to [<backend>/v1/models] with timeout 10.
    Without a backend no call is ever made.  A chat request whose
    [messages] is a non-empty list of objects makes exactly one call when
    a backend is configured, whatever the backend answers and whether or
    not the handler raises afterwards. *)
Theorem backend_is_called_at_most_once {lib : PyLib} (e : env) (st : state) :
  (exists cs,
      calls (snd (do_POST e st)) = calls st ++ cs
      /\ (cs = []
          \/ exists base d,
               path e = "/v1/chat/completions"
               /\ configured_backend e = Some base
               /\ body e = Some (JDict d)
               /\ cs = [backend_request base d]))
  /\ (exists cs,
      calls (snd (do_GET e st)) = calls st ++ cs
      /\ (cs = []
          \/ exists base,
               path e = "/v1/models"
               /\ configured_backend e = Some base
               /\ cs = [ClientGet (models_url base) 10%float]))
  /\ (forall d msgs base,
      path e = "/v1/chat/completions" ->
      body e = Some (JDict d) ->
      dict_get "messages" d = Some (JList msgs) ->
      truthy (JList msgs) = true ->
      forallb is_object msgs = true ->
      configured_backend e = Some base ->
      calls (snd (do_POST e st)) = calls st ++ [backend_request base d]).
Proof.
  split; [|split].
  - destruct (String.eqb_spec (path e) "/v1/chat/completions") as [Hpath|Hpath].
    2:{ rewrite (unknown_post_run e st Hpath). exists []. cbn.
        rewrite app_nil_r. auto. }
    pose proof (chat_run_holds e st Hpath) as Hrun.
    remember (do_POST e st) as out eqn:Hout. clear Hout.
    destruct Hrun; cbn [snd calls add_events set_metrics add_call];
      try (exists []; rewrite app_nil_r; split; [reflexivity | now left]);
      (eexists; split; [reflexivity | right; exists base, d; auto]).
  - pose proof (do_GET_run e st) as Hrun.
    remember (do_GET e st) as out eqn:Hout. clear Hout.
    destruct Hrun; cbn [snd calls add_events set_metrics add_call];
      try (exists []; rewrite app_nil_r; split; [reflexivity | now left]);
      (eexists; split; [reflexivity | right; exists base; auto]).
  - intros d msgs base Hpath Hbody Hmsgs Hne Hobj Hbase.
    rewrite (backend_request_run e st d msgs base) by assumption.
    rewrite (handle_backend_calls e _ _ _ st base (configured_backend_url e base Hbase)).
    reflexivity.
Qed.

(** The backend whose reply has [usage: null] was called once, although
    the handler raised. *)
Lemma backend_is_called_at_most_once_witness :
  calls (snd (do_POST (lib := plain_lib) null_usage_env initial_state))
  = [ClientPost "http://test-backend/v1/chat/completions" hello_payload 60%float].
Proof.
  destruct (backend_is_called_at_most_once (lib := plain_lib) null_usage_env initial_state)
    as (_ & _ & Hcall).
  exact (Hcall [("model", JStr "test"); ("messages", hello_messages)]
           [JDict [("role", JStr "user"); ("content", JStr "hello")]]
           "http://test-backend" eq_refl eq_refl eq_refl eq_refl eq_refl eq_refl).
Defined.

(** ** Framing of the responses *)

Lemma json_response_framed {lib : PyLib} status data rid :
  json_framed (json_response status data rid).
Proof. destruct rid as [[|c r]|]; split; reflexivity. Qed.

Lemma json_events_framed {lib : PyLib} status data rid :
  Forall well_framed (responses_of (json_events status data rid)).
Proof.
  rewrite responses_of_json_events. constructor; [|constructor].
  left. apply json_response_framed.
Qed.

Lemma gateway_reply_framed {lib : PyLib} e rid evs :
  gateway_reply e rid evs -> Forall well_framed (responses_of evs).
Proof.
  intros Hreply.
  destruct Hreply as [| status data _ | content | up _ _ | up f _ _].
  - constructor.
  - apply json_events_framed.
  - rewrite responses_of_sse_echo. constructor; [|constructor].
    right. repeat split; reflexivity.
  - rewrite responses_of_stream. constructor; [|constructor].
    right. repeat split; reflexivity.
  - rewrite responses_of_stream. constructor; [|apply json_events_framed].
    right. destruct rid as [|c r]; repeat split; reflexivity.
Qed.

(** Every response the handler writes, on any route, is either a JSON
    response whose [Content-Length] is the byte length of the body
    written, or a 200 event stream with [Cache-Control: no-cache] and no
    [Content-Length]. *)
Theorem every_response_is_well_framed {lib : PyLib} (e : env) (st : state) :
  (exists evs,
      wire (snd (do_POST e st)) = wire st ++ evs
      /\ Forall well_framed (responses_of evs))
  /\ (exists evs,
      wire (snd (do_GET e st)) = wire st ++ evs
      /\ Forall well_framed (responses_of evs)).
Proof.
  split.
  - destruct (String.eqb_spec (path e) "/v1/chat/completions") as [Hpath|Hpath].
    2:{ rewrite (unknown_post_run e st Hpath). eexists. split; [reflexivity|].
        apply json_events_framed. }
    pose proof (chat_outcome_holds e st Hpath) as Hrun.
    destruct (do_POST e st) as [res st']. cbn [snd].
    inversion Hrun as [code st1 _ _ Hwire _ | status p c evs cs st1 _ Hreply _ _ Hwire _ _
                      | ex evs cs st1 _ Hreply _ _ Hwire _ _]; subst.
    + eexists. split; [exact Hwire | apply json_events_framed].
    + exists evs. split; [exact Hwire | now apply gateway_reply_framed with (e := e) (rid := _get_request_id e)].
    + exists evs. split; [exact Hwire | now apply gateway_reply_framed with (e := e) (rid := _get_request_id e)].
  - pose proof (do_GET_run e st) as Hrun.
    remember (do_GET e st) as out eqn:Hout. clear Hout.
    destruct Hrun; cbn [snd wire add_events set_metrics add_call];
      try (eexists; split; [reflexivity | apply json_events_framed]).
    exists []. rewrite app_nil_r. split; [reflexivity | constructor].
Qed.

(** The stream that breaks after its 200 head: the stream and the 504
    written behind it are each framed. *)
Lemma every_response_is_well_framed_witness :
  Forall well_framed
    (responses_of
       (wire (snd (do_POST (lib := plain_lib)
                     (with_stream broken_stream (backend_env hello_stream_payload))
                     initial_state)))).
Proof.
  destruct (every_response_is_well_framed (lib := plain_lib)
              (with_stream broken_stream (backend_env hello_stream_payload)) initial_state)
    as [(evs & Hwire & Hall) _].
  cbn [wire initial_state app] in Hwire. rewrite Hwire. exact Hall.
Defined.

(** ** The responses of the chat route *)

Lemma rejection_codes e code :
  rejection e = Some code -> code = "invalid_json" \/ code = "invalid_messages".
Proof.
  unfold rejection. destruct (body e) as [[| | | | | |d]|]; try discriminate.
  - destruct (dict_get "messages" d) as [[| | | | |[|m rest]|]|];
      try discriminate; intros H; inversion H; now right.
  - intros H; inversion H; now left.
Qed.

Lemma own_error_response {lib : PyLib} table status code rid :
  In (status, code) table ->
  own_error table (json_response status (error_body code) rid).
Proof. intros Hin. exists code. split; [exact Hin | reflexivity]. Qed.

Lemma backend_errors_own status code :
  In (status, code) backend_errors -> In (status, code) gateway_errors.
Proof. intros H. right. right. exact H. Qed.

Lemma failure_in_backend_errors f : In (failure_status f, failure_code f) backend_errors.
Proof. destruct f; cbn; auto. Qed.

Lemma chat_run_responses {lib : PyLib} e st out :
  chat_run e st out ->
  exists evs,
    wire (snd out) = wire st ++ evs
    /\ Forall (chat_response e) (responses_of evs).
Proof.
  intros Hrun.
  destruct Hrun as [code Hrej | Hrej | d p Hrej Hecho Hbody
                   | base d status code Hrej Hbase Hbody Hin
                   | base d ex Hrej Hbase Hbody Hex
                   | base d up data usage Hrej Hbase Hbody Hstream Hpost H5 Hdec Husage
                   | base d up Hrej Hbase Hbody Hstream Hopen H5 Hend
                   | base d up f Hrej Hbase Hbody Hstream Hopen H5 Hend];
    cbn [snd wire add_events set_metrics add_call].
  - eexists. split; [reflexivity|]. rewrite responses_of_json_events.
    constructor; [|constructor]. right. left. apply own_error_response.
    apply rejection_codes in Hrej as [-> | ->]; cbn; auto.
  - exists []. rewrite app_nil_r. split; [reflexivity | constructor].
  - eexists. split; [reflexivity|]. unfold echo_events.
    destruct (truthy (stream_flag d)).
    + rewrite responses_of_sse_echo. constructor; [now left | constructor].
    + rewrite responses_of_json_events. constructor; [now left | constructor].
  - eexists. split; [reflexivity|]. rewrite responses_of_json_events.
    constructor; [|constructor]. right. left.
    apply own_error_response, backend_errors_own, Hin.
  - exists []. rewrite app_nil_r. split; [reflexivity | constructor].
  - eexists. split; [reflexivity|].
    destruct (fst r); [|constructor].
    rewrite responses_of_json_events. constructor; [|constructor].
    right. right. exists up. auto.
  - eexists. split; [reflexivity|].
    rewrite responses_of_stream. constructor; [now left | constructor].
  - eexists. split; [reflexivity|].
    rewrite responses_of_stream, responses_of_json_events.
    constructor; [now left|]. constructor; [|constructor]. right. left.
    apply own_error_response, backend_errors_own, failure_in_backend_errors.
Qed.

Lemma chat_response_status {lib : PyLib} e r :
  chat_response e r -> r_status r < 500 \/ r_status r = 502 \/ r_status r = 504.
Proof.
  intros [H200 | [(code & Hin & _) | (up & _ & Hs & H5)]].
  - left. lia.
  - cbn in Hin.
    repeat (destruct Hin as [Hin|Hin]; [inversion Hin; lia|]). contradiction.
  - left. lia.
Qed.

(** On the chat route every response is a 200 of the gateway, one of the
    gateway's six error responses ([{"error": code}] with the status that
    goes with the code), or the backend's buffered reply with the
    backend's status, which is below 500.  So no status of 500 or more
    other than 502 and 504 is ever answered: an upstream 5xx is never
    relayed. *)
Theorem chat_errors_are_the_gateways_own {lib : PyLib} (e : env) (st : state) :
  path e = "/v1/chat/completions" ->
  exists evs,
    wire (snd (do_POST e st)) = wire st ++ evs
    /\ Forall (chat_response e) (responses_of evs)
    /\ Forall (fun s => s < 500 \/ s = 502 \/ s = 504) (statuses evs).
Proof.
  intros Hpath.
  destruct (chat_run_responses e st _ (chat_run_holds e st Hpath)) as (evs & Hwire & Hall).
  exists evs. split; [exact Hwire|]. split; [exact Hall|].
  unfold statuses. apply Forall_map.
  eapply Forall_impl; [|exact Hall].
  intros r. apply chat_response_status.
Qed.

(** A backend that answers 500 is answered 502. *)
Lemma chat_errors_are_the_gateways_own_witness :
  Forall (fun s => s < 500 \/ s = 502 \/ s = 504)
    (statuses (wire (snd (do_POST (lib := plain_lib) backend_500_env initial_state)))).
Proof.
  destruct (chat_errors_are_the_gateways_own (lib := plain_lib) backend_500_env initial_state
              eq_refl) as (evs & Hwire & _ & Hall).
  cbn [wire initial_state app] in Hwire. rewrite Hwire. exact Hall.
Defined.

(** ** Exceptions that can leave the handler *)






(** ** Usage that cannot be counted *)

(** A buffered backend reply whose [usage.prompt_tokens] is not a number
    (a string, [null], a list, an object) makes [_record_metrics] raise
    [TypeError] at its third statement: the request and its latency are
    counted, the token totals and the error count are not touched, and no
    response is written.  When [prompt_tokens] can be added and
    [completion_tokens] is not a number, the prompt total is updated as
    well before the [TypeError]. *)
Theorem non_numeric_usage_is_counted_but_not_answered {lib : PyLib} (e : env) (st : state)
    (d : list (string * json)) (msgs : list json) (base : string) (up : upstream)
    (data usage : list (string * json)) :
  path e = "/v1/chat/completions" ->
  body e = Some (JDict d) ->
  dict_get "messages" d = Some (JList msgs) ->
  truthy (JList msgs) = true ->
  forallb is_object msgs = true ->
  configured_backend e = Some base ->
  truthy (stream_flag d) = false ->
  on_post e = CallReturns up ->
  (500 <=? status_code up) = false ->
  decoded up = Some (JDict data) ->
  usage_of data = JDict usage ->
  let called := add_call (ClientPost (chat_url base) (JDict d) 60%float) st in
  (is_number (token_count "prompt_tokens" usage) = false ->
   do_POST e st
   = (Raise TypeError,
      set_metrics
        (counted_only (latency_ms e) (prompt_tokens_total (metrics st)) (metrics st))
        called))
  /\ (forall p,
      py_add (prompt_tokens_total (metrics st)) (token_count "prompt_tokens" usage) = Ok p ->
      is_number (token_count "completion_tokens" usage) = false ->
      do_POST e st
      = (Raise TypeError, set_metrics (counted_only (latency_ms e) p (metrics st)) called)).
Proof.
  intros Hpath Hbody Hmsgs Hne Hobj Hbase Hstream Hpost H5 Hdec Husage. cbn zeta.
  pose proof (configured_backend_url e base Hbase) as Hurl.
  rewrite (backend_request_run e st d msgs base) by assumption.
  rewrite (backend_post_decoded e _ (JDict d) (stream_flag d) st base up data usage)
    by assumption.
  unfold record_outcome. split.
  - intros Hp. rewrite (py_add_non_number _ _ Hp). cbn [fst snd].
    now rewrite add_events_nil.
  - intros p Hp Hc. rewrite Hp, (py_add_non_number _ _ Hc). cbn [fst snd].
    now rewrite add_events_nil.
Qed.

(** [{"usage": {"prompt_tokens": "5"}}]: one request counted, no error
    counted, nothing written. *)
Lemma non_numeric_usage_is_counted_but_not_answered_witness :
  fst (do_POST (lib := plain_lib) string_usage_env initial_state) = Raise TypeError
  /\ wire (snd (do_POST (lib := plain_lib) string_usage_env initial_state)) = []
  /\ request_count (metrics (snd (do_POST (lib := plain_lib) string_usage_env initial_state)))
     = 1
  /\ error_count (metrics (snd (do_POST (lib := plain_lib) string_usage_env initial_state)))
     = 0.
Proof.
  destruct (non_numeric_usage_is_counted_but_not_answered (lib := plain_lib)
              string_usage_env initial_state
              [("model", JStr "test"); ("messages", hello_messages)]
              [JDict [("role", JStr "user"); ("content", JStr "hello")]]
              "http://test-backend"
              {| status_code := 200;
                 decoded := Some (JDict [("usage", JDict [("prompt_tokens", JStr "5")])]) |}
              [("usage", JDict [("prompt_tokens", JStr "5")])]
              [("prompt_tokens", JStr "5")]
              eq_refl eq_refl eq_refl eq_refl eq_refl eq_refl eq_refl eq_refl eq_refl
              eq_refl eq_refl) as [Hprompt _].
  rewrite (Hprompt eq_refl). repeat split; reflexivity.
Defined.

(** ** Latency *)

Lemma completed_request_latency {lib : PyLib} e st :
  path e = "/v1/chat/completions" ->
  fst (do_POST e st) = Ok tt ->
  total_latency_ms (metrics (snd (do_POST e st)))
  = PrimFloat.add (total_latency_ms (metrics st)) (latency_ms e).
Proof.
  intros Hpath Hok.
  pose proof (chat_outcome_holds e st Hpath) as Hrun.
  destruct (do_POST e st) as [res st']. cbn in Hok. subst res. cbn [snd].
  inversion Hrun as [code st1 _ Hm _ _ | status p c evs cs st1 _ _ _ Hm _ _ _ | ];
    subst; rewrite Hm; reflexivity.
Qed.

(** Over completed chat requests [total_latency_ms] is the left-to-right
    floating-point sum of the requests' latencies
    [(time.monotonic() - start) * 1000], rejected requests included. *)
Theorem latency_is_accumulated_in_order {lib : PyLib} (es : list env) : forall (st : state),
  Forall (fun e => path e = "/v1/chat/completions") es ->
  all_complete es st = true ->
  total_latency_ms (metrics (serve es st))
  = fold_left PrimFloat.add (map latency_ms es) (total_latency_ms (metrics st)).
Proof.
  induction es as [|e rest IH]; intros st Hpaths Hall; [reflexivity|].
  inversion Hpaths as [|e' rest' Hpath Hrest]; subst.
  cbn [all_complete] in Hall.
  destruct (fst (do_POST e st)) as [[]|ex] eqn:Hok; [|discriminate].
  cbn [serve map fold_left].
  rewrite (IH (snd (do_POST e st)) Hrest Hall).
  now rewrite (completed_request_latency e st Hpath Hok).
Qed.

(** An echoed and a rejected request of half a second each. *)
Lemma latency_is_accumulated_in_order_witness :
  total_latency_ms
    (metrics (serve (lib := plain_lib)
                [chat_env hello_payload; with_path "/v1/chat/completions" blank_env]
                initial_state))
  = 1000%float.
Proof.
  rewrite (latency_is_accumulated_in_order (lib := plain_lib)
             [chat_env hello_payload; with_path "/v1/chat/completions" blank_env]
             initial_state).
  - reflexivity.
  - repeat constructor.
  - reflexivity.
Defined.

(** ** A gateway without a backend *)

Lemma rejected_request_run {lib : PyLib} e st code :
  path e = "/v1/chat/completions" ->
  rejection e = Some code ->
  do_POST e st
  = (Ok tt,
     add_events (json_events 400 (error_body code) None)
       (set_metrics (recorded_zero 400 (latency_ms e) (metrics st)) st)).
Proof.
  intros Hpath Hrej.
  pose proof (chat_run_holds e st Hpath) as Hrun.
  remember (do_POST e st) as out eqn:Hout. clear Hout.
  destruct Hrun as [code' Hrej' | Hrej' | d p Hrej' _ _
                   | base d status code' Hrej' _ _ _
                   | base d ex' Hrej' _ _ _
                   | base d up data usage Hrej' _ _ _ _ _ _ _
                   | base d up Hrej' _ _ _ _ _ _
                   | base d up f Hrej' _ _ _ _ _ _];
    rewrite Hrej in Hrej'; try discriminate.
  now inversion Hrej'.
Qed.

Lemma echo_prompt_valid e P :
  echo_prompt e = Some P ->
  exists d msgs,
    body e = Some (JDict d)
    /\ dict_get "messages" d = Some (JList msgs)
    /\ truthy (JList msgs) = true
    /\ forallb well_formed_message msgs = true
    /\ P = last_user_content msgs.
Proof.
  unfold echo_prompt.
  destruct (body e) as [[| | | | | |d]|]; try discriminate.
  destruct (dict_get "messages" d) as [[| | | | |[|m rest]|]|] eqn:Hmsgs; try discriminate.
  destruct (forallb well_formed_message (m :: rest)) eqn:Hwf; [|discriminate].
  intros H. inversion H. exists d, (m :: rest). auto.
Qed.

Lemma count_tokens_echo p :
  PyStr.count_tokens ("Echo: " ++ p) = S (PyStr.count_tokens p).
Proof. reflexivity. Qed.

(** One request of an echo session, from integer token totals. *)
Lemma echo_request_step {lib : PyLib} e st pt ct :
  echo_request e = true ->
  prompt_tokens_total (metrics st) = PInt pt ->
  completion_tokens_total (metrics st) = PInt ct ->
  let m' := metrics (snd (do_POST e st)) in
  fst (do_POST e st) = Ok tt
  /\ request_count m' = request_count (metrics st) + 1
  /\ error_count m' = error_count (metrics st) + (if echoed e then 0 else 1)
  /\ prompt_tokens_total m' = PInt (pt + prompt_tokens_of e)
  /\ completion_tokens_total m'
     = PInt (ct + prompt_tokens_of e + (if echoed e then 1 else 0)).
Proof.
  unfold echo_request, echoed, prompt_tokens_of. intros Hreq Hp Hc. cbn zeta.
  apply andb_true_iff in Hreq as [Hreq Hkind].
  apply andb_true_iff in Hreq as [Hpath Hecho].
  apply String.eqb_eq in Hpath.
  destruct (configured_backend e) eqn:Hbase; [discriminate|].
  destruct (echo_prompt e) as [P|] eqn:Hprompt.
  - destruct (echo_prompt_valid e P Hprompt) as (d & msgs & Hbody & Hmsgs & Hne & Hwf & ->).
    rewrite (echo_request_run e st d msgs) by assumption.
    rewrite (handle_echo_run e _ _ _ st pt ct Hp Hc), count_tokens_echo.
    unfold set_metrics, recorded.
    cbn [fst snd metrics request_count error_count prompt_tokens_total
         completion_tokens_total].
    change (400 <=? 200) with false. cbn iota.
    repeat split; try lia; f_equal; lia.
  - destruct (rejection e) as [code|] eqn:Hrej; [|discriminate].
    rewrite (rejected_request_run e st code Hpath Hrej). cbn.
    rewrite Hp, Hc. cbn.
    repeat split; try lia; f_equal; lia.
Qed.

(** A gateway without a backend, from integer token totals: every
    request that is rejected by validation or has well-formed messages
    completes; [request_count] grows by the number of requests,
    [error_count] by the number of rejected ones,
    [prompt_tokens_total] by the prompts' token counts and
    [completion_tokens_total] by the same plus one token per echoed
    request (the [Echo:] prefix). *)
Theorem echo_session_totals {lib : PyLib} (es : list env) : forall (st : state) (pt ct : Z),
  forallb echo_request es = true ->
  prompt_tokens_total (metrics st) = PInt pt ->
  completion_tokens_total (metrics st) = PInt ct ->
  let m' := metrics (serve es st) in
  all_complete es st = true
  /\ request_count m' = request_count (metrics st) + Z.of_nat (List.length es)
  /\ error_count m'
     = error_count (metrics st) + (Z.of_nat (List.length es) - count_echoed es)
  /\ prompt_tokens_total m' = PInt (pt + sum_prompt_tokens es)
  /\ completion_tokens_total m' = PInt (ct + sum_prompt_tokens es + count_echoed es).
Proof.
  induction es as [|e rest IH]; intros st pt ct Hall Hp Hc; cbn zeta.
  - cbn. unfold count_echoed. cbn. rewrite Hp, Hc.
    repeat split; try lia; f_equal; lia.
  - cbn [forallb] in Hall. apply andb_true_iff in Hall as [He Hrest].
    destruct (echo_request_step e st pt ct He Hp Hc) as (Hok & Hn & Herr & Hp' & Hc').
    destruct (IH (snd (do_POST e st)) _ _ Hrest Hp' Hc')
      as (IHok & IHn & IHerr & IHp & IHc).
    cbn [all_complete serve]. rewrite Hok.
    split; [exact IHok|].
    rewrite IHn, IHerr, IHp, IHc, Hn, Herr.
    unfold count_echoed, sum_prompt_tokens. cbn [filter fold_right List.length].
    destruct (echoed e); cbn [List.length];
      repeat split; try lia; f_equal; lia.
Qed.

(** [hello], a rejected [{}], [hello]: two prompt tokens and four
    completion tokens. *)
Lemma echo_session_totals_witness :
  prompt_tokens_total
    (metrics (serve (lib := plain_lib)
                [chat_env hello_payload; chat_env (JDict []); chat_env hello_payload]
                initial_state)) = PInt 2
  /\ completion_tokens_total
       (metrics (serve (lib := plain_lib)
                   [chat_env hello_payload; chat_env (JDict []); chat_env hello_payload]
                   initial_state)) = PInt 4.
Proof.
  destruct (echo_session_totals (lib := plain_lib)
              [chat_env hello_payload; chat_env (JDict []); chat_env hello_payload]
              initial_state 0 0 eq_refl eq_refl eq_refl) as (_ & _ & _ & Hp & Hc).
  split; [exact Hp | exact Hc].
Defined.

(** ** The counters over a session *)

Lemma do_GET_metrics {lib : PyLib} e st : metrics (snd (do_GET e st)) = metrics st.
Proof.
  pose proof (do_GET_run e st) as Hrun.
  remember (do_GET e st) as out eqn:Hout. clear Hout.
  destruct Hrun; reflexivity.
Qed.

(** One request counts nothing, or counts itself and at most one error. *)
Lemma handle_counts {lib : PyLib} m e st :
  let st' := snd (handle m e st) in
  (request_count (metrics st') = request_count (metrics st)
   /\ error_count (metrics st') = error_count (metrics st))
  \/ (request_count (metrics st') = request_count (metrics st) + 1
      /\ error_count (metrics st) <= error_count (metrics st')
         <= error_count (metrics st) + 1).
Proof.
  cbn zeta. destruct m; cbn [handle].
  - left. now rewrite do_GET_metrics.
  - destruct (String.eqb_spec (path e) "/v1/chat/completions") as [Hpath|Hpath].
    2:{ left. now rewrite (unknown_post_run e st Hpath). }
    pose proof (chat_outcome_holds e st Hpath) as Hrun.
    destruct (do_POST e st) as [res st']. cbn [snd].
    inversion Hrun as [code st1 _ Hm _ _ | status p c evs cs st1 _ _ _ Hm _ _ _
                      | ex evs cs st1 _ _ Hcount Herr _ _ _]; subst.
    + right. rewrite Hm. cbn. lia.
    + right. rewrite Hm. cbn. destruct (400 <=? status); lia.
    + destruct (Z.eq_dec (request_count (metrics st')) (request_count (metrics st)));
        [left | right]; lia.
Qed.

(** Over any sequence of GET and POST requests, whether their handlers
    return or raise, [0 <= error_count <= request_count] is kept, no
    counter decreases, and [request_count] grows by at most one per
    request. *)
Theorem errors_never_exceed_requests {lib : PyLib} (rs : list (method * env)) :
  forall (st : state),
  0 <= error_count (metrics st) <= request_count (metrics st) ->
  let m' := metrics (session rs st) in
  0 <= error_count m' <= request_count m'
  /\ error_count (metrics st) <= error_count m'
  /\ request_count (metrics st) <= request_count m'
     <= request_count (metrics st) + Z.of_nat (List.length rs).
Proof.
  induction rs as [|[m e] rest IH]; intros st Hinv; cbn zeta.
  - cbn. lia.
  - cbn [session List.length].
    pose proof (handle_counts m e st) as Hstep. cbn zeta in Hstep.
    assert (Hinv' : 0 <= error_count (metrics (snd (handle m e st)))
                    <= request_count (metrics (snd (handle m e st)))) by lia.
    specialize (IH (snd (handle m e st)) Hinv'). cbn zeta in IH. lia.
Qed.

(** An echo request, a [GET /metrics], a request whose handler raises
    and a rejected one. *)
Lemma errors_never_exceed_requests_witness :
  0 <= error_count
         (metrics (session (lib := plain_lib)
                     [(POST, chat_env hello_payload); (GET, with_path "/metrics" blank_env);
                      (POST, null_usage_env); (POST, chat_env (JDict []))]
                     initial_state))
    <= request_count
         (metrics (session (lib := plain_lib)
                     [(POST, chat_env hello_payload); (GET, with_path "/metrics" blank_env);
                      (POST, null_usage_env); (POST, chat_env (JDict []))]
                     initial_state)).
Proof.
  destruct (errors_never_exceed_requests (lib := plain_lib)
              [(POST, chat_env hello_payload); (GET, with_path "/metrics" blank_env);
               (POST, null_usage_env); (POST, chat_env (JDict []))]
              initial_state) as [Hinv _].
  - cbn. lia.
  - exact Hinv.
Defined.

(** ** Finding the prompt *)

Lemma scan_prompt_skips post rest :
  (forall m, In m post -> is_object m = true /\ role_is_user m = false) ->
  scan_prompt (post ++ rest) = scan_prompt rest.
Proof.
  induction post as [|m post' IH]; intros Hpost; [reflexivity|].
  destruct (Hpost m (or_introl eq_refl)) as [Hobj Hrole].
  destruct m as [| | | | | |dm]; try discriminate.
  cbn [app scan_prompt py_get]. cbn in Hrole.
  destruct (dict_get "role" dm) as [r|]; cbn.
  - rewrite Hrole. apply IH. intros m' Hin. apply Hpost. now right.
  - apply IH. intros m' Hin. apply Hpost. now right.
Qed.

(** The loop over [reversed(messages)] stops at the last user message:
    what precedes it is never looked at and may have any shape.  When the
    last user message is an object whose [content] is absent or a string,
    and the entries after it are objects with another role, an echo-mode
    request is answered with the echo of that content. *)
Theorem prompt_is_the_last_user_message_whatever_precedes_it {lib : PyLib}
    (e : env) (st : state) (d : list (string * json)) (pre post : list json) (u : json) :
  path e = "/v1/chat/completions" ->
  configured_backend e = None ->
  body e = Some (JDict d) ->
  dict_get "messages" d = Some (JList (pre ++ u :: post)) ->
  role_is_user u = true ->
  well_formed_message u = true ->
  forallb (fun m => is_object m && negb (role_is_user m)) post = true ->
  scan_prompt (rev (pre ++ u :: post)) = Ok (JStr (text_content u))
  /\ wire (snd (do_POST e st))
     = wire st ++ echo_events (_get_request_id e) (text_content u) (stream_flag d)
  /\ (int_totals (metrics st) = true -> fst (do_POST e st) = Ok tt).
Proof.
  intros Hpath Hecho Hbody Hmsgs Hrole Hwf Hpost.
  assert (Hscan : scan_prompt (rev (pre ++ u :: post)) = Ok (JStr (text_content u))).
  { rewrite rev_app_distr. cbn [rev]. rewrite <- app_assoc. cbn [app].
    rewrite scan_prompt_skips.
    - rewrite scan_prompt_snoc by exact Hwf. now rewrite Hrole.
    - intros m Hin. apply in_rev in Hin.
      rewrite forallb_forall in Hpost. specialize (Hpost m Hin).
      apply andb_true_iff in Hpost as [Hobj Hnot].
      split; [exact Hobj | now apply negb_true_iff]. }
  split; [exact Hscan|].
  rewrite (chat_route e st Hpath).
  rewrite (chat_completions_dispatch e st d (pre ++ u :: post) Hbody Hmsgs)
    by (destruct pre; discriminate).
  rewrite Hscan, Hecho. split.
  - apply handle_echo_wire.
  - intros Hint. apply int_totals_inv in Hint as (pt & ct & Hp & Hc).
    now rewrite (handle_echo_run e _ _ _ st pt ct Hp Hc).
Qed.

(** [["junk", user "hi there", assistant "hello"]] is answered with the
    echo of [hi there]. *)
Lemma prompt_is_the_last_user_message_whatever_precedes_it_witness :
  wire (snd (do_POST (lib := plain_lib) junk_then_user_env initial_state))
  = echo_events (lib := plain_lib) (uuid4 blank_env) "hi there" (JBool false).
Proof.
  destruct (prompt_is_the_last_user_message_whatever_precedes_it (lib := plain_lib)
              junk_then_user_env initial_state
              [("messages",
                JList [JStr "junk";
                       JDict [("role", JStr "user"); ("content", JStr "hi there")];
                       JDict [("role", JStr "assistant"); ("content", JStr "hello")]])]
              [JStr "junk"]
              [JDict [("role", JStr "assistant"); ("content", JStr "hello")]]
              (JDict [("role", JStr "user"); ("content", JStr "hi there")])
              eq_refl eq_refl eq_refl eq_refl eq_refl eq_refl eq_refl) as (_ & Hwire & _).
  exact Hwire.
Defined.

(** ** What the relay changes in a reply *)

Lemma dict_set_keys k v d :
  map fst (dict_set k v d)
  = match dict_get k d with
    | Some _ => map fst d
    | None => map fst d ++ [k]
    end.
Proof.
  induction d as [|[k' v'] rest IH]; cbn; [reflexivity|].
  destruct (String.eqb k k'); cbn; [reflexivity|].
  rewrite IH. destruct (dict_get k rest); reflexivity.
Qed.

(** A relayed backend reply differs from the decoded upstream object in
    its [id] only: [id] is the request id, every other key has the
    upstream's value, and the keys keep their order, with [id] appended
    last when the upstream had none. *)
Theorem relayed_reply_differs_only_in_id {lib : PyLib} (e : env) (st : state)
    (d : list (string * json)) (msgs : list json) (base : string) (up : upstream)
    (data usage : list (string * json)) (p c : pynum) :
  path e = "/v1/chat/completions" ->
  body e = Some (JDict d) ->
  dict_get "messages" d = Some (JList msgs) ->
  truthy (JList msgs) = true ->
  forallb is_object msgs = true ->
  configured_backend e = Some base ->
  truthy (stream_flag d) = false ->
  on_post e = CallReturns up ->
  (500 <=? status_code up) = false ->
  decoded up = Some (JDict data) ->
  usage_of data = JDict usage ->
  py_add (prompt_tokens_total (metrics st)) (token_count "prompt_tokens" usage) = Ok p ->
  py_add (completion_tokens_total (metrics st)) (token_count "completion_tokens" usage)
  = Ok c ->
  exists relayed,
    wire (snd (do_POST e st))
    = wire st ++ json_events (status_code up) (JDict relayed) (Some (_get_request_id e))
    /\ dict_get "id" relayed = Some (JStr (_get_request_id e))
    /\ (forall k, k <> "id" -> dict_get k relayed = dict_get k data)
    /\ map fst relayed
       = match dict_get "id" data with
         | Some _ => map fst data
         | None => map fst data ++ ["id"]
         end.
Proof.
  intros Hpath Hbody Hmsgs Hne Hobj Hbase Hstream Hpost H5 Hdec Husage Hp Hc.
  pose proof (configured_backend_url e base Hbase) as Hurl.
  exists (dict_set "id" (JStr (_get_request_id e)) data).
  split; [|split; [|split]].
  - rewrite (backend_request_run e st d msgs base) by assumption.
    now rewrite (backend_post_relays e _ (JDict d) (stream_flag d) st base up data usage p c)
      by assumption.
  - apply dict_get_set_same.
  - intros k Hk. apply dict_get_set_other. now apply String.eqb_neq.
  - apply dict_set_keys.
Qed.

(** The tests' mocked completion: [usage] is relayed as it came. *)
Lemma relayed_reply_differs_only_in_id_witness :
  exists relayed,
    wire (snd (do_POST (lib := plain_lib)
                 (with_post (returns 200 (Some (JDict mocked_completion)))
                    (backend_env hello_payload))
                 initial_state))
    = json_events (lib := plain_lib) 200 (JDict relayed) (Some (uuid4 blank_env))
    /\ dict_get "usage" relayed = dict_get "usage" mocked_completion
    /\ map fst relayed = ["id"; "choices"; "usage"].
Proof.
  destruct (relayed_reply_differs_only_in_id (lib := plain_lib)
              (with_post (returns 200 (Some (JDict mocked_completion)))
                 (backend_env hello_payload))
              initial_state
              [("model", JStr "test"); ("messages", hello_messages)]
              [JDict [("role", JStr "user"); ("content", JStr "hello")]]
              "http://test-backend"
              {| status_code := 200; decoded := Some (JDict mocked_completion) |}
              mocked_completion
              [("prompt_tokens", JInt 5); ("completion_tokens", JInt 3);
               ("total_tokens", JInt 8)]
              (PInt 5) (PInt 3)
              eq_refl eq_refl eq_refl eq_refl eq_refl eq_refl eq_refl eq_refl eq_refl
              eq_refl eq_refl eq_refl eq_refl) as (relayed & Hwire & _ & Hother & Hkeys).
  exists relayed. split; [exact Hwire|]. split; [|exact Hkeys].
  apply Hother. discriminate.
Defined.

(** ** The backend URL *)

Lemma rstrip_char_snoc ch s :
  PyStr.rstrip_char ch (s ++ String ch "") = PyStr.rstrip_char ch s.
Proof.
  induction s as [|c s' IH]; cbn.
  - now rewrite Ascii.eqb_refl.
  - now rewrite IH.
Qed.

Lemma slashes_snoc n : (slashes (S n) = slashes n ++ "/")%string.
Proof. induction n as [|n IH]; [reflexivity|]. cbn in *. now rewrite <- IH. Qed.

Lemma rstrip_char_slashes s n :
  PyStr.rstrip_char "/" (s ++ slashes n) = PyStr.rstrip_char "/" s.
Proof.
  induction n as [|n IH].
  - cbn. now rewrite append_nil_r.
  - rewrite slashes_snoc, <- append_assoc, rstrip_char_snoc. exact IH.
Qed.

Lemma rstrip_char_no_trailing ch s t :
  PyStr.rstrip_char ch s <> (t ++ String ch "")%string.
Proof.
  revert t. induction s as [|c s' IH]; intros t; cbn.
  - destruct t; discriminate.
  - destruct (PyStr.rstrip_char ch s') as [|a r] eqn:Hr.
    + destruct (Ascii.eqb_spec c ch) as [->|Hne].
      * destruct t; discriminate.
      * destruct t as [|c' t']; cbn.
        -- intros H. inversion H. contradiction.
        -- destruct t'; discriminate.
    + destruct t as [|c' t']; cbn; [discriminate|].
      intros H. inversion H; subst. now apply (IH t').
Qed.

Lemma handle_backend_same_url {lib : PyLib} e u u' rid payload stream st :
  PyStr.rstrip_char "/" u = PyStr.rstrip_char "/" u' ->
  _handle_backend (with_backend u e) rid payload stream st
  = _handle_backend (with_backend u' e) rid payload stream st.
Proof.
  intros Hurl. unfold _handle_backend. cbn [backend_url with_backend].
  rewrite Hurl. reflexivity.
Qed.

Lemma configured_with_backend u e :
  u <> "" -> configured_backend (with_backend u e) = Some u.
Proof.
  intros Hne. unfold configured_backend. cbn.
  destruct (String.eqb_spec u ""); [contradiction | reflexivity].
Qed.

Lemma do_POST_same_url {lib : PyLib} e u u' st :
  u <> "" -> u' <> "" ->
  PyStr.rstrip_char "/" u = PyStr.rstrip_char "/" u' ->
  do_POST (with_backend u e) st = do_POST (with_backend u' e) st.
Proof.
  intros Hu Hu' Hurl. unfold do_POST. cbn [path with_backend].
  destruct (String.eqb (path e) "/v1/chat/completions"); [|reflexivity].
  unfold _handle_chat_completions.
  rewrite !configured_with_backend by assumption.
  unfold _read_json_body, latency_ms, _get_request_id.
  cbn [body t_start t_record headers uuid4 with_backend].
  run_monad.
  destruct (body e) as [b|].
  2:{ rewrite record_metrics_zero. cbn iota beta. rewrite send_json_run. reflexivity. }
  destruct (py_get b "messages" JNull) as [messages|ex]; [|reflexivity].
  destruct (negb (isinstance_list messages) || negb (truthy messages)); [reflexivity|].
  destruct (py_get b "stream" (JBool false)) as [stream|ex]; [|reflexivity].
  destruct (scan_prompt (rev (items messages))) as [prompt|ex]; [|reflexivity].
  now apply handle_backend_same_url.
Qed.

Lemma do_GET_same_url {lib : PyLib} e u u' st :
  u <> "" -> u' <> "" ->
  PyStr.rstrip_char "/" u = PyStr.rstrip_char "/" u' ->
  do_GET (with_backend u e) st = do_GET (with_backend u' e) st.
Proof.
  intros Hu Hu' Hurl. unfold do_GET. cbn [path with_backend].
  destruct (String.eqb (path e) "/healthz"); [reflexivity|].
  destruct (String.eqb (path e) "/v1/models"); [|reflexivity].
  rewrite !configured_with_backend by assumption.
  unfold _proxy_models. cbn [backend_url with_backend]. rewrite Hurl. reflexivity.
Qed.

Lemma append_nonempty (a b : string) : a <> "" -> (a ++ b)%string <> "".
Proof. destruct a; [contradiction | discriminate]. Qed.

(** Trailing slashes of a non-empty backend URL change nothing: every
    POST and every GET runs the same with and without them, the URLs
    called are the same, and the base they are built from never ends in a
    slash. *)
Theorem trailing_slashes_of_the_backend_url_are_ignored {lib : PyLib}
    (e : env) (st : state) (base : string) (n : nat) :
  base <> "" ->
  do_POST (with_backend (base ++ slashes n) e) st = do_POST (with_backend base e) st
  /\ do_GET (with_backend (base ++ slashes n) e) st = do_GET (with_backend base e) st
  /\ chat_url (base ++ slashes n) = chat_url base
  /\ models_url (base ++ slashes n) = models_url base
  /\ forall t, PyStr.rstrip_char "/" base <> (t ++ "/")%string.
Proof.
  intros Hne.
  pose proof (rstrip_char_slashes base n) as Hurl.
  pose proof (append_nonempty base (slashes n) Hne) as Hne'.
  split; [now apply do_POST_same_url|].
  split; [now apply do_GET_same_url|].
  unfold chat_url, models_url. rewrite Hurl.
  split; [reflexivity|]. split; [reflexivity|].
  intros t. apply rstrip_char_no_trailing.
Qed.

(** [http://test-backend//] is called at
    [http://test-backend/v1/chat/completions]. *)
Lemma trailing_slashes_of_the_backend_url_are_ignored_witness :
  calls (snd (do_POST (lib := plain_lib)
                (with_backend "http://test-backend//" (chat_env hello_payload))
                initial_state))
  = [ClientPost "http://test-backend/v1/chat/completions" hello_payload 60%float].
Proof.
  destruct (trailing_slashes_of_the_backend_url_are_ignored (lib := plain_lib)
              (chat_env hello_payload) initial_state "http://test-backend" 2)
    as (Hpost & _).
  - discriminate.
  - cbn [slashes append] in Hpost. 
    change ("http://test-backend" ++ "//")%string with "http://test-backend//" in Hpost.
    rewrite Hpost. reflexivity.
Defined.

(** ** Counting tokens *)

Lemma split_from_app cur a c b :
  PyStr.isspace c = true ->
  PyStr.split_from cur (a ++ String c b)
  = PyStr.split_from cur a ++ PyStr.split b.
Proof.
  intros Hc. revert cur. induction a as [|x a' IH]; intros cur.
  - cbn. rewrite Hc. destruct cur; reflexivity.
  - cbn. destruct (PyStr.isspace x).
    + destruct cur; cbn; now rewrite IH.
    + apply IH.
Qed.

Lemma split_from_nil cur s :
  PyStr.split_from cur s = [] <-> cur = None /\ blank s = true.
Proof.
  revert cur. induction s as [|c rest IH]; intros cur; cbn.
  - destruct cur; split; try discriminate; auto. intros [H _]. discriminate.
  - destruct (PyStr.isspace c); cbn.
    + destruct cur.
      * split; [discriminate | intros [H _]; discriminate].
      * apply IH.
    + rewrite IH. split; intros [H1 H2]; discriminate.
Qed.

Lemma solid_snoc w c :
  solid w = true -> PyStr.isspace c = false -> solid (w ++ String c "") = true.
Proof.
  intros Hw Hc. induction w as [|x w' IH]; cbn in *.
  - now rewrite Hc.
  - apply andb_true_iff in Hw as [Hx Hw']. rewrite Hx. cbn. now apply IH.
Qed.

Lemma split_from_words cur s :
  match cur with Some w => word w | None => True end ->
  Forall word (PyStr.split_from cur s).
Proof.
  revert cur. induction s as [|c rest IH]; intros cur Hcur; cbn.
  - destruct cur; constructor; [exact Hcur | constructor].
  - destruct (PyStr.isspace c) eqn:Hc.
    + destruct cur; [constructor; [exact Hcur|]|]; now apply IH.
    + apply IH. destruct cur as [w|].
      * destruct Hcur as [Hne Hsolid]. split.
        -- destruct w; discriminate.
        -- now apply solid_snoc.
      * split; [discriminate|]. cbn. now rewrite Hc.
Qed.

Lemma split_from_solid cur s :
  solid s = true ->
  PyStr.split_from cur s
  = match cur, s with
    | Some w, _ => [(w ++ s)%string]
    | None, EmptyString => []
    | None, _ => [s]
    end.
Proof.
  revert cur. induction s as [|c rest IH]; intros cur Hs; cbn in *.
  - destruct cur; [now rewrite append_nil_r | reflexivity].
  - apply andb_true_iff in Hs as [Hc Hrest]. apply negb_true_iff in Hc. rewrite Hc.
    rewrite (IH _ Hrest). destruct cur; [now rewrite append_assoc | reflexivity].
Qed.

(** The tokens [_handle_echo] counts with [len(s.split())] are the
    whitespace-separated words of [s]: splitting distributes over a
    whitespace character, a string has no token exactly when it is blank,
    every token is a non-empty string without whitespace, and a word is
    its own single token. *)
Theorem usage_tokens_are_whitespace_separated_words (a b : string) (c : ascii) :
  (PyStr.isspace c = true -> PyStr.split (a ++ String c b) = PyStr.split a ++ PyStr.split b)
  /\ (PyStr.split a = [] <-> blank a = true)
  /\ Forall word (PyStr.split a)
  /\ (solid a = true -> a <> "" -> PyStr.split a = [a]).
Proof.
  split; [|split; [|split]].
  - intros Hc. now apply split_from_app.
  - unfold PyStr.split. rewrite split_from_nil. tauto.
  - now apply split_from_words.
  - intros Hsolid Hne. unfold PyStr.split. rewrite (split_from_solid None a Hsolid).
    destruct a; [contradiction | reflexivity].
Qed.

(** [hi there], with a tab between the words, has the two tokens [hi] and
    [there]. *)
Lemma usage_tokens_are_whitespace_separated_words_witness :
  PyStr.split ("hi" ++ String (ascii_of_nat 9) "there") = ["hi"; "there"].
Proof.
  destruct (usage_tokens_are_whitespace_separated_words "hi" "there" (ascii_of_nat 9))
    as (Happ & _ & _ & Hhi).
  destruct (usage_tokens_are_whitespace_separated_words "there" "" (ascii_of_nat 9))
    as (_ & _ & _ & Hthere).
  rewrite (Happ eq_refl), (Hhi eq_refl), (Hthere eq_refl) by discriminate.
  reflexivity.
Defined.
